(** * invoice-gen: the numbering/template store, the record builder and the
      layout engine of [invoice_generator.py], embedded and verified.

    The Python program is embedded shallowly:
    - Python/JSON values are the inductive [value]; a [dict] is an
      association list in insertion order with unique string keys;
    - floats are IEEE binary64 numbers, given by the Standard Library's
      [spec_float] at precision 53 and maximal exponent 1024;
    - side effects (the files, standard output and input, the clock) are
      threaded through a state-and-exception monad [M] over [World];
    - exceptions are the inductive [exn]; an uncaught one ends the run.

    What lies outside the program is taken as follows:
    - a text is the string of its UTF-8 bytes; [str.strip] removes the
      white space of Unicode, while [float] and [int] are modelled on
      ASCII texts and give [Unsupported] on any other;
    - a JSON file is kept as the value it holds, [json.load] after
      [json.dump] being the identity on the values the program writes;
    - reportlab is a parameter of the world: which exception, if any,
      [Paragraph(text, style)] raises on a text and [doc.build] on a story
      is given by the field [reportlab]; [Spacer] and [Table] are
      constructors of layout data, and a document that is built holds the
      story and the time the library read while building it;
    - input/output errors of the operating system are not modelled. *)

From Stdlib Require Import ZArith List String Ascii Bool Lia.
From Stdlib Require Import DecimalString DecimalZ DecimalN DecimalPos DecimalFacts.
From Stdlib Require Import Floats.SpecFloat.
From stdpp Require Import base gmap strings.

Import ListNotations.
#[local] Set Warnings "-register-all".
Local Open Scope string_scope.
Local Open Scope Z_scope.

(** ** Python values *)

Module Py.

Inductive value : Type :=
| VNone
| VBool (b : bool)
| VInt (n : Z)
| VFloat (x : spec_float)
| VStr (s : string)
| VList (l : list value)
| VDict (d : list (string * value)).

(** The exceptions the program can raise.  [LibraryError] is an exception
    of another class raised inside reportlab ([LayoutError] and the like).
    [Unsupported] is not a Python exception: it marks the builtin
    behaviours left outside the model (the [str()] of a float or of a
    container, [float] and [int] of a text that is not ASCII). *)
Inductive exn : Type :=
| KeyError (key : string)
| TypeError
| AttributeError
| ValueError
| OverflowError
| EOFError
| JSONDecodeError
| SystemExit (code : Z)
| LibraryError (class : string)
| Unsupported (what : string).

Inductive outcome (A : Type) : Type :=
| Ret (a : A)
| Raise (e : exn).
Arguments Ret {A} a.
Arguments Raise {A} e.

Definition and_then {A B} (o : outcome A) (k : A -> outcome B) : outcome B :=
  match o with
  | Ret a => k a
  | Raise e => Raise e
  end.

Declare Scope outcome_scope.
Delimit Scope outcome_scope with outcome.
Notation "x <~ o ;; k" := (and_then o (fun x => k))
  (at level 100, o at next level, right associativity) : outcome_scope.
Local Open Scope outcome_scope.

Definition binary64_prec : Z := 53.
Definition binary64_emax : Z := 1024.

Definition float_add : spec_float -> spec_float -> spec_float :=
  SFadd binary64_prec binary64_emax.
Definition float_of_Z (n : Z) : spec_float :=
  binary_normalize binary64_prec binary64_emax n 0 false.

Definition float_is_zero (x : spec_float) : bool :=
  match x with S754_zero _ => true | _ => false end.

(** [bool(v)] *)
Definition truthy (v : value) : bool :=
  match v with
  | VNone => false
  | VBool b => b
  | VInt n => negb (n =? 0)
  | VFloat x => negb (float_is_zero x)
  | VStr s => negb (String.eqb s "")
  | VList l => match l with [] => false | _ => true end
  | VDict d => match d with [] => false | _ => true end
  end.

(** [a or b] and [a and b] on already evaluated operands (every use in the
    program has operands whose evaluation cannot raise after the first). *)
Definition py_or (a b : value) : value := if truthy a then a else b.
Definition py_and (a b : value) : value := if truthy a then b else a.

(** An optional command-line string as a Python value ([None] when absent). *)
Definition of_opt (o : option string) : value :=
  match o with Some s => VStr s | None => VNone end.

(** *** dict *)

Fixpoint dict_lookup (k : string) (d : list (string * value)) : option value :=
  match d with
  | [] => None
  | (k', v) :: d' => if String.eqb k k' then Some v else dict_lookup k d'
  end.

(** [d[k] = v]: overwrite in place, or append a new key at the end. *)
Fixpoint dict_store (k : string) (v : value) (d : list (string * value))
  : list (string * value) :=
  match d with
  | [] => [(k, v)]
  | (k', v') :: d' =>
      if String.eqb k k' then (k, v) :: d' else (k', v') :: dict_store k v d'
  end.

Definition dict_keys (d : list (string * value)) : list string := map fst d.

(** Substring test, for [k in s] on a string [s]. *)
Fixpoint is_prefix (p s : string) : bool :=
  match p, s with
  | EmptyString, _ => true
  | String a p', String b s' => if Ascii.eqb a b then is_prefix p' s' else false
  | String _ _, EmptyString => false
  end.

Fixpoint is_substring (p s : string) : bool :=
  if is_prefix p s then true
  else match s with
       | EmptyString => false
       | String _ s' => is_substring p s'
       end.

Definition is_str (k : string) (v : value) : bool :=
  match v with VStr s => String.eqb s k | _ => false end.

(** [k in v] for a string [k]. *)
Definition contains (k : string) (v : value) : outcome bool :=
  match v with
  | VDict d => Ret (match dict_lookup k d with Some _ => true | None => false end)
  | VList l => Ret (existsb (is_str k) l)
  | VStr s => Ret (is_substring k s)
  | _ => Raise TypeError
  end.

(** [v[k]] for a string [k]. *)
Definition getitem (v : value) (k : string) : outcome value :=
  match v with
  | VDict d => match dict_lookup k d with
               | Some x => Ret x
               | None => Raise (KeyError k)
               end
  | _ => Raise TypeError
  end.

(** [v[k] = x] for a string [k]; returns the updated container. *)
Definition setitem (v : value) (k : string) (x : value) : outcome value :=
  match v with
  | VDict d => Ret (VDict (dict_store k x d))
  | _ => Raise TypeError
  end.

(** [v.get(k, default)] *)
Definition get_method (v : value) (k : string) (default : value) : outcome value :=
  match v with
  | VDict d => Ret (match dict_lookup k d with Some x => x | None => default end)
  | _ => Raise AttributeError
  end.

(** [list(v.keys())] *)
Definition keys_method (v : value) : outcome (list string) :=
  match v with
  | VDict d => Ret (dict_keys d)
  | _ => Raise AttributeError
  end.

(** [v + 1] *)
Definition add_one (v : value) : outcome value :=
  match v with
  | VInt n => Ret (VInt (n + 1))
  | VBool b => Ret (VInt ((if b then 1 else 0) + 1))
  | VFloat x => Ret (VFloat (float_add x (float_of_Z 1)))
  | _ => Raise TypeError
  end.

End Py.
Export Py.
Local Open Scope outcome_scope.

(** ** Text: the string builtins and format specifications the program uses *)

Module Text.

Definition is_digit (c : ascii) : bool :=
  let n := nat_of_ascii c in (48 <=? n)%nat && (n <=? 57)%nat.

Definition digit_value (c : ascii) : Z := Z.of_nat (nat_of_ascii c) - 48.

(** Decimal digits of a natural number; ["0"] for zero. *)
Definition digits (n : N) : string := NilZero.string_of_uint (N.to_uint n).

Fixpoint zeros (k : nat) : string :=
  match k with
  | O => ""
  | S k' => String "0" (zeros k')
  end.

(** [format(n, "0<width>d")]: sign-aware zero padding to a minimum width. *)
Definition format_0d (width : nat) (n : Z) : string :=
  let sign := if n <? 0 then "-" else "" in
  let ds := digits (Z.abs_N n) in
  sign ++ zeros (width - String.length sign - String.length ds) ++ ds.

(** [f"{v:04d}"] *)
Definition format_04d (v : value) : outcome string :=
  match v with
  | VInt n => Ret (format_0d 4 n)
  | VBool b => Ret (format_0d 4 (if b then 1 else 0))
  | VFloat _ | VStr _ => Raise ValueError
  | VNone | VList _ | VDict _ => Raise TypeError
  end.

(** Thousands grouping of a digit string: a comma before every block of
    three digits counted from the right. *)
Fixpoint commas (s : string) : string :=
  match s with
  | EmptyString => EmptyString
  | String c s' =>
      let n := String.length s' in
      String c (if (0 <? n)%nat && (n mod 3 =? 0)%nat
                then String "," (commas s') else commas s')
  end.

(** The integer nearest to [100 * m * 2^e], ties to even: the amount in
    hundredths that a correctly rounded [.2f] conversion prints. *)
Definition round_half_even (n d : Z) : Z :=
  let q := n / d in
  let r := n mod d in
  match (2 * r) ?= d with
  | Lt => q
  | Gt => q + 1
  | Eq => if Z.even q then q else q + 1
  end.

Definition hundredths (m : positive) (e : Z) : Z :=
  if 0 <=? e then 100 * Zpos m * 2 ^ e
  else round_half_even (100 * Zpos m) (2 ^ (- e)).

Definition fixed2 (sign : bool) (c : Z) : string :=
  (if sign then "-" else "") ++
  commas (digits (Z.to_N (c / 100))) ++ "." ++ format_0d 2 (c mod 100).

(** [format(x, ",.2f")] for a float. *)
Definition float_format_comma_2f (x : spec_float) : string :=
  match x with
  | S754_nan => "nan"
  | S754_infinity s => if s then "-inf" else "inf"
  | S754_zero s => fixed2 s 0
  | S754_finite s m e => fixed2 s (hundredths m e)
  end.

(** [f"{v:,.2f}"]: an int is first converted to a float. *)
Definition format_comma_2f (v : value) : outcome string :=
  let of_int n :=
    match float_of_Z n with
    | S754_infinity _ => Raise OverflowError
    | x => Ret (float_format_comma_2f x)
    end in
  match v with
  | VFloat x => Ret (float_format_comma_2f x)
  | VInt n => of_int n
  | VBool b => of_int (if b then 1 else 0)
  | VStr _ => Raise ValueError
  | VNone | VList _ | VDict _ => Raise TypeError
  end.

(** [str(v)], as an f-string without a format specification applies it. *)
Definition py_str (v : value) : outcome string :=
  match v with
  | VStr s => Ret s
  | VNone => Ret "None"
  | VBool b => Ret (if b then "True" else "False")
  | VInt n => Ret ((if n <? 0 then "-" else "") ++ digits (Z.abs_N n))
  | VFloat _ => Raise (Unsupported "str of a float")
  | VList _ | VDict _ => Raise (Unsupported "str of a container")
  end.

(** *** [str.strip], [str.replace], [str.endswith] *)

(** The white space of [str.isspace], a text being the string of its UTF-8
    bytes.  In one byte: U+0009 to U+000D, U+001C to U+0020. *)
Definition is_space (c : ascii) : bool :=
  let n := nat_of_ascii c in
  ((9 <=? n)%nat && (n <=? 13)%nat) || ((28 <=? n)%nat && (n <=? 32)%nat).

(** In two bytes: U+0085 and U+00A0. *)
Definition is_space2 (a b : ascii) : bool :=
  let y := nat_of_ascii b in
  (nat_of_ascii a =? 194)%nat && ((y =? 133)%nat || (y =? 160)%nat).

(** In three bytes: U+1680, U+2000 to U+200A, U+2028, U+2029, U+202F,
    U+205F and U+3000. *)
Definition is_space3 (a b c : ascii) : bool :=
  let x := nat_of_ascii a in
  let y := nat_of_ascii b in
  let z := nat_of_ascii c in
  ((x =? 225)%nat && (y =? 154)%nat && (z =? 128)%nat)
  || ((x =? 226)%nat && (y =? 128)%nat
      && (((128 <=? z)%nat && (z <=? 138)%nat)
          || (z =? 168)%nat || (z =? 169)%nat || (z =? 175)%nat))
  || ((x =? 226)%nat && (y =? 129)%nat && (z =? 159)%nat)
  || ((x =? 227)%nat && (y =? 128)%nat && (z =? 128)%nat).

Fixpoint lstrip (s : string) : string :=
  match s with
  | String a r1 =>
      if is_space a then lstrip r1
      else
        match r1 with
        | String b r2 =>
            if is_space2 a b then lstrip r2
            else
              match r2 with
              | String c r3 => if is_space3 a b c then lstrip r3 else s
              | EmptyString => s
              end
        | EmptyString => s
        end
  | EmptyString => EmptyString
  end.

(** What is left of [s] is dropped from the first character on after
    which there is only white space. *)
Fixpoint rstrip (s : string) : string :=
  match s with
  | String c s' =>
      if String.eqb (lstrip s) EmptyString then EmptyString
      else String c (rstrip s')
  | EmptyString => EmptyString
  end.

Definition strip (s : string) : string := rstrip (lstrip s).

(** A text of ASCII characters only. *)
Definition is_ascii (s : string) : bool :=
  forallb (fun c => (nat_of_ascii c <? 128)%nat) (list_ascii_of_string s).

(** [s.replace(c, '')] for a one-character [c]. *)
Fixpoint remove_char (c : ascii) (s : string) : string :=
  match s with
  | String a s' => if Ascii.eqb a c then remove_char c s' else String a (remove_char c s')
  | EmptyString => EmptyString
  end.

Definition endswith (s suffix : string) : bool :=
  let n := String.length s in
  let k := String.length suffix in
  (k <=? n)%nat && String.eqb (substring (n - k) k s) suffix.

End Text.
Export Text.

(** ** [float(s)]: decimal text to the nearest binary64 number *)

Module FloatParse.

Definition is_char (a : ascii) (c : ascii) : bool := Ascii.eqb c a.

(** [digitpart ::= digit (["_"] digit)*]: the digits read, and what is left. *)
Fixpoint digitpart (after_digit : bool) (l : list ascii) : list ascii * list ascii :=
  match l with
  | c :: l' =>
      if is_digit c then
        let '(ds, r) := digitpart true l' in (c :: ds, r)
      else if after_digit && is_char "_" c then
        match l' with
        | c2 :: _ => if is_digit c2 then digitpart false l' else ([], l)
        | [] => ([], l)
        end
      else ([], l)
  | [] => ([], [])
  end.

Definition Z_of_digits (ds : list ascii) : Z :=
  fold_left (fun acc c => 10 * acc + digit_value c) ds 0.

Definition lower (c : ascii) : ascii :=
  let n := nat_of_ascii c in
  if (65 <=? n)%nat && (n <=? 90)%nat then ascii_of_nat (n + 32) else c.

(** An optional sign: [true] for "-". *)
Definition read_sign (l : list ascii) : bool * list ascii :=
  match l with
  | c :: l' => if is_char "+" c then (false, l')
               else if is_char "-" c then (true, l')
               else (false, l)
  | [] => (false, l)
  end.

(** The nearest binary64 number to [(-1)^s * d * 10^e10], ties to even. *)
Definition decimal_to_float (s : bool) (d : Z) (e10 : Z) : spec_float :=
  match d with
  | Zpos p =>
      if 0 <=? e10 then
        binary_normalize binary64_prec binary64_emax
          (cond_Zopp s (Zpos p * 10 ^ e10)) 0 s
      else
        SFdiv binary64_prec binary64_emax
          (S754_finite s p 0) (S754_finite false (Z.to_pos (10 ^ (- e10))) 0)
  | _ => S754_zero s
  end.

(** [floatnumber ::= ([digitpart] "." digitpart | digitpart ["."]) [exponent]] *)
Definition read_number (s : bool) (l : list ascii) : outcome spec_float :=
  let '(ip, r1) := digitpart false l in
  let '(fp, r2) :=
    match r1 with
    | c :: r1' => if is_char "." c then digitpart false r1' else ([], r1)
    | [] => ([], r1)
    end in
  match (ip ++ fp)%list with
  | [] => Raise ValueError
  | mant =>
      let finish (ex : Z) :=
        Ret (decimal_to_float s (Z_of_digits mant) (ex - Z.of_nat (length fp))) in
      match r2 with
      | [] => finish 0
      | c :: r2' =>
          if is_char "e" (lower c) then
            let '(es, r3) := read_sign r2' in
            match digitpart false r3 with
            | ((_ :: _) as ep, []) => finish (cond_Zopp es (Z_of_digits ep))
            | _ => Raise ValueError
            end
          else Raise ValueError
      end
  end.

(** [float(text)] for a string argument.  The text is stripped of white
    space; [float] also reads the decimal digits of other scripts, whose
    table is the interpreter's, so a text that is not ASCII once stripped
    is left outside the model. *)
Definition py_float (text : string) : outcome spec_float :=
  if is_ascii (strip text) then
    let '(s, body) := read_sign (list_ascii_of_string (strip text)) in
    let name := string_of_list_ascii (map lower body) in
    if String.eqb name "inf" || String.eqb name "infinity" then Ret (S754_infinity s)
    else if String.eqb name "nan" then Ret S754_nan
    else read_number s body
  else Raise (Unsupported "float of a text that is not ASCII").

End FloatParse.
Export FloatParse.

(** ** The world the program runs in *)

Module Sys.

(** Style sheets and layout blocks handed to the external renderer
    (reportlab's platypus).  Style sizes are in points; spacer heights and
    column widths are in hundredths of an inch. *)
Record ParagraphStyle := {
  style_name : string;
  parent : string;
  fontSize : option Z;
  textColor : option string;
  spaceAfter : option Z;
  spaceBefore : option Z;
  alignment : option string;
  borderWidth : option Z;
  borderColor : option string;
  borderPadding : option Z
}.

(** One [TableStyle] command: name, first cell, last cell, arguments. *)
Record style_cmd := {
  cmd : string;
  start_cell : Z * Z;
  stop_cell : Z * Z;
  cmd_args : list string
}.

Inductive flowable : Type :=
| Paragraph (text : value) (style : ParagraphStyle)
| Spacer (width : Z) (height : Z)
| Table (cells : list (list value)) (colWidths : list Z) (style : list style_cmd).

(** Page geometry given to [SimpleDocTemplate], margins in points. *)
Record page_geometry := {
  pagesize : string;
  rightMargin : Z;
  leftMargin : Z;
  topMargin : Z;
  bottomMargin : Z
}.

Record datetime := {
  year : N; month : N; day : N; hour : N; minute : N; second : N
}.

(** What a file holds.  A JSON text is kept as the value it parses to
    ([json.load] after [json.dump] is the identity); a PDF is kept as the
    story it was built from and the time the library read while building
    it, which it writes into the document (creation and modification date,
    document id); [Garbage] is any other content, which [json.load]
    rejects. *)
Inductive file : Type :=
| JsonText (v : value)
| PdfDocument (geometry : page_geometry) (elements : list flowable)
    (created : datetime)
| Garbage.

(** The exceptions raised inside reportlab: [ValueError] on a text that is
    not well-formed markup, [AttributeError] or [TypeError] on a value that
    is no text, and those of its other classes ([LayoutError] for a block
    that does not fit its frame). *)
Inductive library_error : Type :=
| LibValueError
| LibAttributeError
| LibTypeError
| LibOther (class : string).

Definition exn_of_library (e : library_error) : exn :=
  match e with
  | LibValueError => ValueError
  | LibAttributeError => AttributeError
  | LibTypeError => TypeError
  | LibOther class => LibraryError class
  end.

(** reportlab, as far as the program depends on it: [Paragraph(text,
    style)] parses its text as markup when the paragraph is made and may
    raise, and [doc.build] may raise on the story it is given. *)
Record Reportlab := {
  paragraph_error : value -> ParagraphStyle -> option library_error;
  build_error : page_geometry -> list flowable -> option library_error
}.

Inductive out_event : Type :=
| Print (line : string)
| Prompt (text : string)
| PrintHelp.

(** The files, the terminal, the clock (its successive readings and how
    many were taken) and the installed reportlab. *)
Record World := {
  files : gmap string file;
  stdout : list out_event;
  stdin : list string;
  clock : nat -> datetime;
  ticks : nat;
  reportlab : Reportlab
}.

(** Computations with side effects on the world that may raise. *)
Definition M (A : Type) : Type := World -> outcome A * World.

Definition ret {A} (a : A) : M A := fun w => (Ret a, w).
Definition raise {A} (e : exn) : M A := fun w => (Raise e, w).
Definition bind {A B} (m : M A) (k : A -> M B) : M B :=
  fun w => match m w with
           | (Ret a, w') => k a w'
           | (Raise e, w') => (Raise e, w')
           end.
Definition lift {A} (o : outcome A) : M A := fun w => (o, w).

Declare Scope py_scope.
Delimit Scope py_scope with py.
Notation "x <- m ;; k" := (bind m (fun x => k))
  (at level 100, m at next level, right associativity) : py_scope.
Notation "m ;;; k" := (bind m (fun _ => k))
  (at level 100, right associativity) : py_scope.
Local Open Scope py_scope.

Definition print (line : string) : M unit :=
  fun w => (Ret tt, {| files := files w; stdout := (stdout w ++ [Print line])%list;
                       stdin := stdin w; clock := clock w; ticks := ticks w;
     reportlab := reportlab w |}).

Definition print_help : M unit :=
  fun w => (Ret tt, {| files := files w; stdout := (stdout w ++ [PrintHelp])%list;
                       stdin := stdin w; clock := clock w; ticks := ticks w;
     reportlab := reportlab w |}).

(** [input(prompt)]: shows the prompt and reads one line; [EOFError] at the
    end of the input. *)
Definition input (prompt : string) : M string :=
  fun w =>
    let out := (stdout w ++ [Prompt prompt])%list in
    match stdin w with
    | line :: rest =>
        (Ret line, {| files := files w; stdout := out; stdin := rest;
                      clock := clock w; ticks := ticks w;
     reportlab := reportlab w |})
    | [] =>
        (Raise EOFError, {| files := files w; stdout := out; stdin := [];
                            clock := clock w; ticks := ticks w;
     reportlab := reportlab w |})
    end.

(** [datetime.now()]: the next reading of the clock. *)
Definition now : M datetime :=
  fun w => (Ret (clock w (ticks w)),
            {| files := files w; stdout := stdout w; stdin := stdin w;
               clock := clock w; ticks := S (ticks w);
     reportlab := reportlab w |}).

Definition write_file (name : string) (f : file) : M unit :=
  fun w => (Ret tt, {| files := <[name := f]> (files w); stdout := stdout w;
                       stdin := stdin w; clock := clock w; ticks := ticks w;
     reportlab := reportlab w |}).

Definition read_file (name : string) : M (option file) :=
  fun w => (Ret (files w !! name), w).

(** [Paragraph(text, style)] *)
Definition paragraph (text : value) (style : ParagraphStyle) : M flowable :=
  fun w =>
    match paragraph_error (reportlab w) text style with
    | Some e => (Raise (exn_of_library e), w)
    | None => (Ret (Paragraph text style), w)
    end.

(** [SimpleDocTemplate(filename, ...).build(elements)]: the library reads
    the time, lays the story out and, unless that fails, writes the file.
    However often the library looks at the clock, the build counts as one
    reading. *)
Definition doc_build (filename : string) (geometry : page_geometry)
  (elements : list flowable) : M unit :=
  t <- now ;;
  fun w =>
    match build_error (reportlab w) geometry elements with
    | Some e => (Raise (exn_of_library e), w)
    | None => write_file filename (PdfDocument geometry elements t) w
    end.

(** [strftime('%Y-%m-%d')] and [strftime('%Y%m%d_%H%M%S')]; the year is
    padded to four digits. *)
Definition two (n : N) : string := format_0d 2 (Z.of_N n).
Definition strftime_date (t : datetime) : string :=
  format_0d 4 (Z.of_N (year t)) ++ "-" ++ two (month t) ++ "-" ++ two (day t).
Definition strftime_stamp (t : datetime) : string :=
  format_0d 4 (Z.of_N (year t)) ++ two (month t) ++ two (day t) ++ "_" ++
  two (hour t) ++ two (minute t) ++ two (second t).

(** [json.load] of an open file. *)
Definition json_load (f : file) : outcome value :=
  match f with
  | JsonText v => Ret v
  | _ => Raise JSONDecodeError
  end.

End Sys.
Export Sys.
Local Open Scope py_scope.

(** ** The numbering and template store: [class InvoiceNumberManager] *)

Module Store.

Record InvoiceNumberManager := {
  data_file : string;
  data : value
}.

Definition zero_document : value :=
  VDict [("last_invoice_number", VInt 0); ("templates", VDict [])].

(** [_load_data]: the parsed file when it exists, the zero document when
    it does not. *)
Definition _load_data (file_name : string) : M value :=
  f <- read_file file_name ;;
  match f with
  | Some content => lift (json_load content)
  | None => ret zero_document
  end.

(** [__init__(data_file='invoice_data.json')] *)
Definition __init__ (file_name : string) : M InvoiceNumberManager :=
  d <- _load_data file_name ;;
  ret {| data_file := file_name; data := d |}.

Definition default_data_file : string := "invoice_data.json".

(** [_save_data]: the whole document replaces the file. *)
Definition _save_data (self : InvoiceNumberManager) : M unit :=
  write_file (data_file self) (JsonText (data self)).

(** [get_next_invoice_number]: increment in memory, save, then format.
    Returns the number and the manager as mutated. *)
Definition get_next_invoice_number (self : InvoiceNumberManager)
  : M (string * InvoiceNumberManager) :=
  old <- lift (getitem (data self) "last_invoice_number") ;;
  new <- lift (add_one old) ;;
  d' <- lift (setitem (data self) "last_invoice_number" new) ;;
  let self' := {| data_file := data_file self; data := d' |} in
  _save_data self' ;;;
  current <- lift (getitem d' "last_invoice_number") ;;
  number <- lift (format_04d current) ;;
  ret (number, self').

(** [get_current_invoice_number] *)
Definition get_current_invoice_number (self : InvoiceNumberManager) : M string :=
  current <- lift (getitem (data self) "last_invoice_number") ;;
  lift (format_04d current).

(** [save_template(name, template_data)] *)
Definition save_template (self : InvoiceNumberManager) (name : string)
  (template_data : value) : M InvoiceNumberManager :=
  present <- lift (contains "templates" (data self)) ;;
  d1 <- (if present then ret (data self)
         else lift (setitem (data self) "templates" (VDict []))) ;;
  templates <- lift (getitem d1 "templates") ;;
  templates' <- lift (setitem templates name template_data) ;;
  d2 <- lift (setitem d1 "templates" templates') ;;
  let self' := {| data_file := data_file self; data := d2 |} in
  _save_data self' ;;;
  ret self'.

(** [load_template(name)]: [None] when there is no such template. *)
Definition load_template (self : InvoiceNumberManager) (name : string) : M value :=
  present <- lift (contains "templates" (data self)) ;;
  if present then
    templates <- lift (getitem (data self) "templates") ;;
    lift (get_method templates name VNone)
  else ret VNone.

(** [list_templates] *)
Definition list_templates (self : InvoiceNumberManager) : M (list string) :=
  present <- lift (contains "templates" (data self)) ;;
  if present then
    templates <- lift (getitem (data self) "templates") ;;
    lift (keys_method templates)
  else ret [].

End Store.
Export Store.

(** ** The layout engine: [class InvoiceGenerator] *)

Module Layout.

Definition nl : string := String "010"%char EmptyString.

Record InvoiceGenerator := {
  invoice_data : list (string * value)
}.

Definition plain_style (name parent_name : string) : ParagraphStyle :=
  {| style_name := name; parent := parent_name; fontSize := None;
     textColor := None; spaceAfter := None; spaceBefore := None;
     alignment := None; borderWidth := None; borderColor := None;
     borderPadding := None |}.

Definition title_style : ParagraphStyle :=
  {| style_name := "CustomTitle"; parent := "Heading1"; fontSize := Some 24;
     textColor := Some "#1a1a1a"; spaceAfter := Some 30; spaceBefore := None;
     alignment := Some "TA_CENTER"; borderWidth := None; borderColor := None;
     borderPadding := None |}.

Definition heading_style : ParagraphStyle :=
  {| style_name := "CustomHeading"; parent := "Heading2"; fontSize := Some 14;
     textColor := Some "#1a1a1a"; spaceAfter := Some 12; spaceBefore := Some 12;
     alignment := None; borderWidth := None; borderColor := None;
     borderPadding := None |}.

Definition normal_style : ParagraphStyle := plain_style "Normal" "".

Definition note_style : ParagraphStyle :=
  {| style_name := "Note"; parent := "Normal"; fontSize := Some 10;
     textColor := Some "#666666"; spaceAfter := Some 12; spaceBefore := None;
     alignment := None; borderWidth := Some 1; borderColor := Some "#cccccc";
     borderPadding := Some 10 |}.

Definition sc (c : string) (a b : Z * Z) (args : list string) : style_cmd :=
  {| cmd := c; start_cell := a; stop_cell := b; cmd_args := args |}.

Definition header_table_style : list style_cmd :=
  [ sc "ALIGN" (0, 0) (0, -1) ["RIGHT"];
    sc "ALIGN" (1, 0) (1, -1) ["LEFT"];
    sc "FONTNAME" (0, 0) (0, -1) ["Helvetica-Bold"];
    sc "FONTNAME" (1, 0) (1, -1) ["Helvetica"];
    sc "FONTSIZE" (0, 0) (-1, -1) ["11"];
    sc "BOTTOMPADDING" (0, 0) (-1, -1) ["8"] ].

Definition line_items_table_style : list style_cmd :=
  [ sc "BACKGROUND" (0, 0) (-1, 0) ["#e0e0e0"];
    sc "TEXTCOLOR" (0, 0) (-1, 0) ["black"];
    sc "ALIGN" (0, 0) (-1, 0) ["CENTER"];
    sc "ALIGN" (1, 1) (1, -1) ["RIGHT"];
    sc "FONTNAME" (0, 0) (-1, 0) ["Helvetica-Bold"];
    sc "FONTSIZE" (0, 0) (-1, 0) ["12"];
    sc "FONTNAME" (0, 1) (-1, -1) ["Helvetica"];
    sc "FONTSIZE" (0, 1) (-1, -1) ["11"];
    sc "BOTTOMPADDING" (0, 0) (-1, -1) ["12"];
    sc "TOPPADDING" (0, 0) (-1, -1) ["12"];
    sc "GRID" (0, 0) (-1, -1) ["1"; "black"] ].

Definition total_table_style : list style_cmd :=
  [ sc "ALIGN" (0, 0) (0, 0) ["RIGHT"];
    sc "ALIGN" (1, 0) (1, 0) ["RIGHT"];
    sc "FONTNAME" (0, 0) (-1, -1) ["Helvetica-Bold"];
    sc "FONTSIZE" (0, 0) (-1, -1) ["12"];
    sc "TOPPADDING" (0, 0) (-1, -1) ["12"];
    sc "BOTTOMPADDING" (0, 0) (-1, -1) ["12"] ].

Definition letter_geometry : page_geometry :=
  {| pagesize := "letter"; rightMargin := 72; leftMargin := 72;
     topMargin := 72; bottomMargin := 18 |}.

(** [d.get(k)] and [d[k]] on the record. *)
Definition get (d : list (string * value)) (k : string) : value :=
  match dict_lookup k d with Some v => v | None => VNone end.
Definition item (d : list (string * value)) (k : string) : outcome value :=
  getitem (VDict d) k.

(** [if d.get(k): section.append(Paragraph(<text of d[k]>, normal_style))] *)
Definition optional_line (d : list (string * value)) (k : string)
  (text : value -> outcome value) : M (list flowable) :=
  if truthy (get d k) then
    v <- lift (item d k) ;;
    t <- lift (text v) ;;
    line <- paragraph t normal_style ;;
    ret [line]
  else ret [].

(** [f"<label>{v}"] *)
Definition labelled (label : string) (v : value) : outcome value :=
  s <~ py_str v ;; Ret (VStr (label ++ s)).

(** [f"${v:,.2f}"] *)
Definition amount_text (v : value) : outcome string :=
  s <~ format_comma_2f v ;; Ret ("$" ++ s).

(** The description cell: the service description, with the service
    period on a following line when there is one. *)
Definition line_description (d : list (string * value)) : outcome value :=
  let description :=
    match dict_lookup "service_description" d with
    | Some v => v
    | None => VStr "Software engineering services"
    end in
  if truthy (get d "service_period") then
    a <~ py_str description ;;
    p <~ item d "service_period" ;;
    b <~ py_str p ;;
    Ret (VStr (a ++ nl ++ b))
  else Ret description.

(** The remittance paragraph's text. *)
Definition remittance_text (d : list (string * value)) : outcome string :=
  holder_value <~ item d "account_holder" ;;
  holder <~ py_str holder_value ;;
  tag_value <~ item d "dolartag" ;;
  tag <~ py_str tag_value ;;
  let text :=
    nl ++ "        <b>Dolarapp Account Information:</b><br/>" ++ nl ++
    "        Account Holder: " ++ holder ++ "<br/>" ++ nl ++
    "        Dolartag: " ++ tag ++ nl ++ "        " in
  if truthy (get d "additional_payment_info") then
    extra_value <~ item d "additional_payment_info" ;;
    extra <~ py_str extra_value ;;
    Ret (text ++ "<br/>" ++ extra)
  else Ret text.

Definition note_text : string :=
  "<b>Note:</b> Services performed outside the U.S.; no U.S. withholding applies.".

(** The flowables [generate_pdf] builds, in order, before [doc.build]. *)
Definition build_elements (d : list (string * value)) : M (list flowable) :=
  title_line <- paragraph (VStr "INVOICE") title_style ;;
  let title := [title_line; Spacer 1 20] in
  invoice_number <- lift (item d "invoice_number") ;;
  issue_date <- lift (item d "issue_date") ;;
  let header_data :=
    [ [VStr "Invoice Number:"; invoice_number];
      [VStr "Issue Date:"; issue_date];
      [VStr "Currency:"; VStr "USD"] ] in
  let header := [Table header_data [200; 400] header_table_style; Spacer 1 30] in
  from_heading <- paragraph (VStr "<b>From:</b>") heading_style ;;
  l1 <- optional_line d "contractor_name" Ret ;;
  l2 <- optional_line d "contractor_cuil" (labelled "CUIL: ") ;;
  l3 <- optional_line d "contractor_tax_status" (labelled "Tax Status: ") ;;
  let from_section := (from_heading :: l1 ++ l2 ++ l3)%list in
  to_heading <- paragraph (VStr "<b>Bill To:</b>") heading_style ;;
  l4 <- optional_line d "client_name" Ret ;;
  l5 <- optional_line d "client_address" Ret ;;
  l6 <- optional_line d "client_ein" (labelled "EIN: ") ;;
  let to_section := (to_heading :: l4 ++ l5 ++ l6)%list in
  let parties :=
    match from_section, to_section with
    | [], [] => []
    | _, _ => (from_section ++ [Spacer 1 15] ++ to_section ++ [Spacer 1 20])%list
    end in
  services_line <- paragraph (VStr "<b>Services</b>") heading_style ;;
  let services_heading := [services_line; Spacer 1 10] in
  description <- lift (line_description d) ;;
  amount_value <- lift (item d "amount") ;;
  amount <- lift (amount_text amount_value) ;;
  let line_items_data :=
    [ [VStr "Description"; VStr "Amount (USD)"]; [description; VStr amount] ] in
  let line_items :=
    [Table line_items_data [450; 150] line_items_table_style; Spacer 1 15] in
  total_value <- lift (item d "amount") ;;
  total <- lift (amount_text total_value) ;;
  let total_block :=
    [Table [[VStr "Total:"; VStr total]] [450; 150] total_table_style; Spacer 1 30] in
  remittance_line <-
    paragraph (VStr "<b>Remittance Instructions</b>") heading_style ;;
  let remittance_heading := [remittance_line] in
  text <- lift (remittance_text d) ;;
  remittance_body <- paragraph (VStr text) normal_style ;;
  let remittance := [remittance_body; Spacer 1 30] in
  note_line <- paragraph (VStr note_text) note_style ;;
  let note := [note_line] in
  ret (title ++ header ++ parties ++ services_heading ++ line_items ++
       total_block ++ remittance_heading ++ remittance ++ note)%list.

(** [generate_pdf(filename)]: lay the record out, then [doc.build] makes
    the document of the story. *)
Definition generate_pdf (self : InvoiceGenerator) (filename : string) : M string :=
  elements <- build_elements (invoice_data self) ;;
  doc_build filename letter_geometry elements ;;;
  ret filename.

End Layout.
Export Layout.

(** ** The command line: the [argparse] parser of [main] *)

Module Cli.

(** What the user typed: each option absent ([None]) or given with a text. *)
Record CommandLine := {
  opt_amount : option string;
  opt_account_holder : option string;
  opt_dolartag : option string;
  opt_client_name : option string;
  opt_client_address : option string;
  opt_client_ein : option string;
  opt_contractor_name : option string;
  opt_contractor_cuil : option string;
  opt_contractor_tax_status : option string;
  opt_service_description : option string;
  opt_service_period : option string;
  opt_issue_date : option string;
  opt_additional_payment_info : option string;
  opt_output : option string;
  opt_save_template : option string;
  opt_use_template : option string;
  opt_list_templates : bool
}.

(** The namespace [parse_args] returns. *)
Record Namespace := {
  amount : option spec_float;
  account_holder : option string;
  dolartag : option string;
  client_name : option string;
  client_address : option string;
  client_ein : option string;
  contractor_name : option string;
  contractor_cuil : option string;
  contractor_tax_status : option string;
  service_description : string;
  service_period : option string;
  issue_date : option string;
  additional_payment_info : option string;
  output : option string;
  save_template : option string;
  use_template : option string;
  list_templates : bool
}.

Definition default_service_description : string :=
  "Contractor services - Software Engineer".

(** [parser.parse_args()]: [--amount] goes through [type=float] (a text
    that is no float makes argparse exit with status 2), and
    [--service-description] has a default. *)
Definition parse_args (cl : CommandLine) : outcome Namespace :=
  let finish (a : option spec_float) :=
    Ret {| amount := a;
           account_holder := opt_account_holder cl;
           dolartag := opt_dolartag cl;
           client_name := opt_client_name cl;
           client_address := opt_client_address cl;
           client_ein := opt_client_ein cl;
           contractor_name := opt_contractor_name cl;
           contractor_cuil := opt_contractor_cuil cl;
           contractor_tax_status := opt_contractor_tax_status cl;
           service_description :=
             match opt_service_description cl with
             | Some s => s
             | None => default_service_description
             end;
           service_period := opt_service_period cl;
           issue_date := opt_issue_date cl;
           additional_payment_info := opt_additional_payment_info cl;
           output := opt_output cl;
           save_template := opt_save_template cl;
           use_template := opt_use_template cl;
           list_templates := opt_list_templates cl |} in
  match opt_amount cl with
  | None => finish None
  | Some text =>
      match py_float text with
      | Ret x => finish (Some x)
      | Raise ValueError | Raise TypeError => Raise (SystemExit 2)
      | Raise e => Raise e
      end
  end.

Definition of_opt_float (o : option spec_float) : value :=
  match o with Some x => VFloat x | None => VNone end.

End Cli.

(** ** The program: [interactive_mode] and [main] *)

Module Program.

Definition pdf_suffix (name : string) : string :=
  if endswith name ".pdf" then name else name ++ ".pdf".

(** The [while True] loop asking for the amount: one line of input per
    round, until one parses as a float. *)
Fixpoint ask_amount (lines : list string) (out : list out_event)
  : outcome spec_float * list string * list out_event :=
  let out' := (out ++ [Prompt "Invoice amount (USD): "])%list in
  match lines with
  | [] => (Raise EOFError, [], out')
  | line :: rest =>
      let amount_str := strip line in
      match py_float (remove_char "$" (remove_char "," amount_str)) with
      | Ret x => (Ret x, rest, out')
      | Raise ValueError =>
          ask_amount rest
            (out' ++ [Print "Invalid amount. Please enter a numeric value."])%list
      | Raise e => (Raise e, rest, out')
      end
  end.

Definition input_amount : M spec_float :=
  fun w =>
    let '(r, rest, out) := ask_amount (stdin w) (stdout w) in
    (r, {| files := files w; stdout := out; stdin := rest;
           clock := clock w; ticks := ticks w;
     reportlab := reportlab w |}).

Definition input_stripped (prompt : string) : M string :=
  s <- input prompt ;; ret (strip s).

(** [interactive_mode()] *)
Definition interactive_mode : M unit :=
  print (nl ++ "=== Invoice Generator - Interactive Mode ===" ++ nl) ;;;
  client_name <- input_stripped "Client name (optional, press Enter to skip): " ;;
  client_address <- input_stripped "Client address (optional, press Enter to skip): " ;;
  answer <- input_stripped "Service description [Software engineering services]: " ;;
  let service_description :=
    if String.eqb answer "" then "Software engineering services" else answer in
  amount <- input_amount ;;
  t0 <- now ;;
  issue_date_str <-
    input_stripped ("Issue date [today: " ++ strftime_date t0 ++ "]: ") ;;
  issue_date <-
    (if String.eqb issue_date_str ""
     then t <- now ;; ret (strftime_date t)
     else ret issue_date_str) ;;
  account_holder <- input_stripped "Account holder name: " ;;
  dolartag <- input_stripped "Dolartag: " ;;
  additional_payment_info <-
    input_stripped "Additional payment info (optional, press Enter to skip): " ;;
  t1 <- now ;;
  let default_filename := "invoice_" ++ strftime_stamp t1 ++ ".pdf" in
  answer' <- input_stripped ("Output filename [" ++ default_filename ++ "]: ") ;;
  let output_filename :=
    pdf_suffix (if String.eqb answer' "" then default_filename else answer') in
  invoice_manager <- __init__ default_data_file ;;
  r <- get_next_invoice_number invoice_manager ;;
  let invoice_number := fst r in
  let invoice_data :=
    [ ("invoice_number", VStr invoice_number);
      ("issue_date", VStr issue_date);
      ("client_name", VStr client_name);
      ("client_address", VStr client_address);
      ("service_description", VStr service_description);
      ("amount", VFloat amount);
      ("account_holder", VStr account_holder);
      ("dolartag", VStr dolartag);
      ("additional_payment_info", VStr additional_payment_info) ] in
  generate_pdf {| invoice_data := invoice_data |} output_filename ;;;
  print (nl ++ "✓ Invoice #" ++ invoice_number ++
         " generated successfully: " ++ output_filename).

(** The merge of template data and command-line arguments, as the dict
    literal of [main] builds it.  [template] is the loaded template (or
    the empty dict), [args] the parsed command line. *)
Definition merge (explicit : option string) (template : list (string * value))
  (k : string) : value :=
  py_or (of_opt explicit)
        (match dict_lookup k template with Some v => v | None => VStr "" end).

Definition merge_service_description (args : Cli.Namespace)
  (template : list (string * value)) : value :=
  if negb (String.eqb (Cli.service_description args) Cli.default_service_description)
  then VStr (Cli.service_description args)
  else match dict_lookup "service_description" template with
       | Some v => v
       | None => VStr (Cli.service_description args)
       end.

Definition build_invoice_data (args : Cli.Namespace)
  (template : list (string * value)) (invoice_number issue_date : string)
  : list (string * value) :=
  [ ("invoice_number", VStr invoice_number);
    ("issue_date", VStr issue_date);
    ("client_name", merge (Cli.client_name args) template "client_name");
    ("client_address", merge (Cli.client_address args) template "client_address");
    ("client_ein", merge (Cli.client_ein args) template "client_ein");
    ("contractor_name", merge (Cli.contractor_name args) template "contractor_name");
    ("contractor_cuil", merge (Cli.contractor_cuil args) template "contractor_cuil");
    ("contractor_tax_status",
       merge (Cli.contractor_tax_status args) template "contractor_tax_status");
    ("service_description", merge_service_description args template);
    ("service_period", py_or (of_opt (Cli.service_period args)) (VStr ""));
    ("amount", Cli.of_opt_float (Cli.amount args));
    ("account_holder", merge (Cli.account_holder args) template "account_holder");
    ("dolartag", merge (Cli.dolartag args) template "dolartag");
    ("additional_payment_info",
       merge (Cli.additional_payment_info args) template "additional_payment_info") ].

Definition template_fields : list string :=
  [ "client_name"; "client_address"; "client_ein"; "contractor_name";
    "contractor_cuil"; "contractor_tax_status"; "service_description";
    "account_holder"; "dolartag"; "additional_payment_info" ].

(** The [template_to_save] dict literal: one subscript of the invoice
    record per template field, in order. *)
Fixpoint project (fields : list string) (d : list (string * value))
  : outcome (list (string * value)) :=
  match fields with
  | [] => Ret []
  | k :: rest =>
      v <~ item d k ;;
      t <~ project rest d ;;
      Ret ((k, v) :: t)
  end.

Definition template_to_save (d : list (string * value))
  : outcome (list (string * value)) :=
  project template_fields d.

(** [for template_name in templates: print(f"  - {template_name}")] *)
Fixpoint print_names (names : list string) : M unit :=
  match names with
  | [] => ret tt
  | name :: rest => print ("  - " ++ name) ;;; print_names rest
  end.

(** [args.issue_date if args.issue_date else datetime.now().strftime('%Y-%m-%d')] *)
Definition choose_issue_date (args : Cli.Namespace) : M string :=
  let today := (t <- now ;; ret (strftime_date t)) in
  match Cli.issue_date args with
  | Some s => if truthy (VStr s) then ret s else today
  | None => today
  end.

(** [args.output if args.output else f"invoice_{...}.pdf"] *)
Definition choose_output_filename (args : Cli.Namespace) : M string :=
  let stamped := (t <- now ;; ret ("invoice_" ++ strftime_stamp t ++ ".pdf")) in
  match Cli.output args with
  | Some s => if truthy (VStr s) then ret s else stamped
  | None => stamped
  end.

(** Argument mode: the [if] branch of [main] once the gate is passed. *)
Definition argument_mode (args : Cli.Namespace)
  (invoice_manager : InvoiceNumberManager) (template : list (string * value))
  : M (option Z) :=
  r <- get_next_invoice_number invoice_manager ;;
  let invoice_number := fst r in
  let invoice_manager := snd r in
  issue_date <- choose_issue_date args ;;
  output_filename <- choose_output_filename args ;;
  let output_filename := pdf_suffix output_filename in
  let invoice_data := build_invoice_data args template invoice_number issue_date in
  generate_pdf {| invoice_data := invoice_data |} output_filename ;;;
  print ("✓ Invoice #" ++ invoice_number ++
         " generated successfully: " ++ output_filename) ;;;
  match Cli.save_template args with
  | Some name =>
      if truthy (VStr name) then
        t <- lift (template_to_save invoice_data) ;;
        save_template invoice_manager name (VDict t) ;;;
        print ("✓ Template saved as '" ++ name ++ "'") ;;;
        ret None
      else ret None
  | None => ret None
  end.

(** The argument-mode gate of [main]:
    [(args.amount and args.account_holder and args.dolartag)
      or (args.amount and required_from_template)]. *)
Definition argument_gate (args : Cli.Namespace) (required_from_template : value)
  : bool :=
  let amount := Cli.of_opt_float (Cli.amount args) in
  truthy
    (py_or
       (py_and (py_and amount (of_opt (Cli.account_holder args)))
               (of_opt (Cli.dolartag args)))
       (py_and amount required_from_template)).

(** [main] after the template has been loaded. *)
Definition dispatch (args : Cli.Namespace)
  (invoice_manager : InvoiceNumberManager) (template_data : value)
  : M (option Z) :=
  holder <- lift (get_method template_data "account_holder" VNone) ;;
  required_from_template <-
    (if truthy holder then lift (get_method template_data "dolartag" VNone)
     else ret holder) ;;
  template <-
    (match template_data with
     | VDict t => ret t
     | _ => raise AttributeError
     end) ;;
  if argument_gate args required_from_template then
    argument_mode args invoice_manager template
  else if existsb truthy
            [ Cli.of_opt_float (Cli.amount args);
              of_opt (Cli.account_holder args);
              of_opt (Cli.dolartag args) ]
  then
    print "Error: When using argument mode, --amount, --account-holder, and --dolartag are all required." ;;;
    print ("Use --help for more information, or run without arguments for interactive mode." ++ nl) ;;;
    print_help ;;;
    ret (Some 1)
  else
    interactive_mode ;;;
    ret None.

(** [main()]: the value it returns ([None] when it falls off the end). *)
Definition main (cl : Cli.CommandLine) : M (option Z) :=
  args <- lift (Cli.parse_args cl) ;;
  invoice_manager <- __init__ default_data_file ;;
  if Cli.list_templates args then
    templates <- list_templates invoice_manager ;;
    (match templates with
     | [] => print (nl ++ "No templates saved yet.")
     | _ => print (nl ++ "Available templates:") ;;; print_names templates
     end) ;;;
    ret (Some 0)
  else
    match Cli.use_template args with
    | Some name =>
        if truthy (VStr name) then
          template_data <- load_template invoice_manager name ;;
          match template_data with
          | VNone =>
              print ("Error: Template '" ++ name ++ "' not found.") ;;;
              print "Use --list-templates to see available templates." ;;;
              ret (Some 1)
          | _ =>
              print ("Loaded template: " ++ name) ;;;
              dispatch args invoice_manager template_data
          end
        else dispatch args invoice_manager (VDict [])
    | None => dispatch args invoice_manager (VDict [])
    end.

(** [if __name__ == '__main__': main()]: the value [main] returns is
    dropped.  The exit status of the process is 0 when [main] returns, the
    code of a [SystemExit], and 1 for any other uncaught exception. *)
Definition exit_status (cl : Cli.CommandLine) : World -> Z * World :=
  fun w =>
    match main cl w with
    | (Ret _, w') => (0, w')
    | (Raise (SystemExit code), w') => (code, w')
    | (Raise _, w') => (1, w')
    end.

End Program.
Export Program.

(** * Specification vocabulary

    The notions the claims are stated with, and the sample inputs their
    witnesses and counterexamples run on. *)

Section Vocabulary.

Implicit Types (d : list (string * value)) (k name : string) (w : World)
  (doc : value) (args : Cli.Namespace).

(** ** Numbering: numerals and the scenario of repeated allocation *)

(** The decimal numeral of an integer, as the Standard Library prints it. *)
Definition decimal (n : Z) : string := NilZero.string_of_int (Z.to_int n).

(** A numeral padded on the left with zeros to a minimum width. *)
Definition zero_padded (width : nat) (s : string) : string :=
  zeros (width - String.length s) ++ s.

(** The scenario of the numbering claims: [n] successive calls on one
    manager, recording after each call what it returned and what the
    backing file then holds. *)
Fixpoint allocate_repeatedly (n : nat) (self : InvoiceNumberManager)
  : M (list (string * option file)) :=
  match n with
  | O => ret []
  | S n' =>
      r <- get_next_invoice_number self ;;
      stored <- read_file (data_file self) ;;
      rest <- allocate_repeatedly n' (snd r) ;;
      ret ((fst r, stored) :: rest)
  end.

(** The document [d] with its counter set to [n]. *)
Definition with_counter (d : list (string * value)) (n : Z) : value :=
  VDict (dict_store "last_invoice_number" (VInt n) d).

(** ** The merge rule and the template projection *)

Definition per_invoice_fields : list string :=
  [ "invoice_number"; "issue_date"; "amount"; "service_period" ].

(** The merge rule in the words of the specification: the explicit value
    when it is non-empty, otherwise the template's value when the template
    provides one, otherwise the default. *)
Definition spec_merge (explicit : option string) (from_template : option value)
  (default : value) : value :=
  let fallback := match from_template with Some v => v | None => default end in
  match explicit with
  | Some s => if String.eqb s "" then fallback else VStr s
  | None => fallback
  end.

(** The fields merged with [or] in [main], with the option that sets each. *)
Definition explicit_options (cl : Cli.CommandLine) : list (string * option string) :=
  [ ("client_name", Cli.opt_client_name cl);
    ("client_address", Cli.opt_client_address cl);
    ("client_ein", Cli.opt_client_ein cl);
    ("contractor_name", Cli.opt_contractor_name cl);
    ("contractor_cuil", Cli.opt_contractor_cuil cl);
    ("contractor_tax_status", Cli.opt_contractor_tax_status cl);
    ("account_holder", Cli.opt_account_holder cl);
    ("dolartag", Cli.opt_dolartag cl);
    ("additional_payment_info", Cli.opt_additional_payment_info cl) ].

(** ** Layout: what it depends on, required fields *)

(** A computation that neither reads nor changes the world. *)
Definition pure {A} (m : M A) : Prop := exists o, forall w, m w = (o, w).

(** A computation that leaves the world as it is and whose outcome depends
    on the world through reportlab only. *)
Definition steady {A} (m : M A) : Prop :=
  forall w,
    snd (m w) = w
    /\ forall w', reportlab w' = reportlab w -> fst (m w') = fst (m w).

(** [e] is an exception reportlab raises in [w] on one of the paragraphs
    [ps]. *)
Definition library_raises (ps : list (value * ParagraphStyle)) w (e : exn) : Prop :=
  exists (text : value) (style : ParagraphStyle) (le : library_error),
    In (text, style) ps
    /\ paragraph_error (reportlab w) text style = Some le
    /\ e = exn_of_library le.

(** The paragraph an optional line of the record is made of, if any. *)
Definition line_paragraph d k (text : value -> outcome value)
  : list (value * ParagraphStyle) :=
  if truthy (get d k) then
    match (v <~ item d k ;; text v)%outcome with
    | Ret t => [(t, normal_style)]
    | Raise _ => []
    end
  else [].

(** The paragraphs the layout makes before it has read the amount, the
    account holder and the payment tag: the headings and the party lines
    of the record. *)
Definition early_paragraphs d : list (value * ParagraphStyle) :=
  ([ (VStr "INVOICE", title_style); (VStr "<b>From:</b>", heading_style) ]
   ++ line_paragraph d "contractor_name" Ret
   ++ line_paragraph d "contractor_cuil" (labelled "CUIL: ")
   ++ line_paragraph d "contractor_tax_status" (labelled "Tax Status: ")
   ++ [ (VStr "<b>Bill To:</b>", heading_style) ]
   ++ line_paragraph d "client_name" Ret
   ++ line_paragraph d "client_address" Ret
   ++ line_paragraph d "client_ein" (labelled "EIN: ")
   ++ [ (VStr "<b>Services</b>", heading_style);
        (VStr "<b>Remittance Instructions</b>", heading_style) ])%list.

(** The time a built document holds, if the file is one. *)
Definition created_at (f : option file) : option datetime :=
  match f with
  | Some (PdfDocument _ _ t) => Some t
  | _ => None
  end.

(** The story a built document holds, if the file is one. *)
Definition story_of (f : option file) : option (list flowable) :=
  match f with
  | Some (PdfDocument _ elements _) => Some elements
  | _ => None
  end.

Definition required_fields : list string := [ "amount"; "account_holder"; "dolartag" ].

(** Values an f-string prints without a format specification. *)
Definition printable (v : value) : bool :=
  match py_str v with Ret _ => true | Raise _ => false end.

(** An invoice record as the data model has it: number and issue date
    always there, the amount (when there) a float, every other field (when
    there) a text or another value that [str()] prints. *)
Record invoice_record d : Prop := {
  has_number : exists v, dict_lookup "invoice_number" d = Some v;
  has_date : exists v, dict_lookup "issue_date" d = Some v;
  amount_is_float :
    forall v, dict_lookup "amount" d = Some v -> exists x, v = VFloat x;
  texts_printable :
    forall k v, k <> "amount" -> dict_lookup k d = Some v -> printable v = true
}.

(** The services row and the total row of a layout. *)
Definition services_table (description : value) (amount : string) : flowable :=
  Table [ [VStr "Description"; VStr "Amount (USD)"]; [description; VStr amount] ]
        [450; 150] line_items_table_style.

Definition total_table (amount : string) : flowable :=
  Table [ [VStr "Total:"; VStr amount] ] [450; 150] total_table_style.

(** ** Amounts: nearest hundredth and the shape of the text *)

(** [c] is the integer nearest to [100 * m * 2^e], ties going to the even
    one: the amount in hundredths, correctly rounded. *)
Definition nearest_hundredths (m : positive) (e : Z) (c : Z) : Prop :=
  if 0 <=? e then c = 100 * Zpos m * 2 ^ e
  else
    let den := 2 ^ (- e) in
    2 * Z.abs (c * den - 100 * Zpos m) <= den
    /\ (2 * Z.abs (c * den - 100 * Zpos m) = den -> Z.even c = true).

Definition amount_hundredths (x : spec_float) (c : Z) : Prop :=
  match x with
  | S754_zero _ => c = 0
  | S754_finite _ m e => nearest_hundredths m e c
  | _ => False
  end.

(** Finite, with the sign bit clear. *)
Definition nonneg_finite (x : spec_float) : bool :=
  match x with
  | S754_zero false | S754_finite false _ _ => true
  | _ => false
  end.

(** Zero or more blocks of a comma and three digits. *)
Inductive thousands : string -> Prop :=
| thousands_nil : thousands ""
| thousands_cons (a b c : ascii) (s : string) :
    is_digit a = true -> is_digit b = true -> is_digit c = true ->
    thousands s ->
    thousands (String "," (String a (String b (String c s)))).

(** One to three digits, then blocks of a comma and three digits. *)
Inductive grouped : string -> Prop :=
| grouped_1 (a : ascii) (s : string) :
    is_digit a = true -> thousands s -> grouped (String a s)
| grouped_2 (a b : ascii) (s : string) :
    is_digit a = true -> is_digit b = true -> thousands s ->
    grouped (String a (String b s))
| grouped_3 (a b c : ascii) (s : string) :
    is_digit a = true -> is_digit b = true -> is_digit c = true ->
    thousands s -> grouped (String a (String b (String c s))).

(** The number a string of decimal digits denotes. *)
Definition numeral (s : string) : option N :=
  option_map N.of_uint (NilEmpty.uint_of_string s).

(** [s] is the amount of [c] hundredths written with a dollar sign, comma
    grouped thousands, a point and exactly two decimals. *)
Definition money_text (c : Z) (s : string) : Prop :=
  exists whole frac : string,
    s = "$" ++ whole ++ "." ++ frac
    /\ grouped whole
    /\ numeral (remove_char "," whole) = Some (Z.to_N (c / 100))
    /\ String.length frac = 2%nat
    /\ numeral frac = Some (Z.to_N (c mod 100)).

Fixpoint all_digits (s : string) : bool :=
  match s with
  | EmptyString => true
  | String c s' => is_digit c && all_digits s'
  end.

(** What follows a leading block: nothing, or a comma and the grouping of
    the remaining digits. *)
Definition rest_grouped (s : string) : string :=
  match s with
  | EmptyString => EmptyString
  | _ => String "," (commas s)
  end.

(** ** Stored documents and what [main] prints *)








(** ** Sample inputs *)

Definition sample_clock : nat -> datetime :=
  fun _ => {| year := 2025; month := 1; day := 31;
              hour := 9; minute := 5; second := 7 |}.

(** A clock that has moved on by a second at each reading. *)
Definition ticking_clock : nat -> datetime :=
  fun n => {| year := 2025; month := 1; day := 31;
              hour := 9; minute := 5; second := 7 + N.of_nat n |}.

(** A reportlab for the examples.  Like the installed one it refuses, with
    [ValueError], a text that opens a bold tag and never closes it, and,
    with [AttributeError], a value that is no text; it accepts the other
    texts of the examples and builds their stories. *)
Definition unclosed_bold (s : string) : bool :=
  is_prefix "<b>" s && negb (is_substring "</b>" s).

Definition sample_reportlab : Reportlab :=
  {| paragraph_error :=
       fun text _ =>
         match text with
         | VStr s => if unclosed_bold s then Some LibValueError else None
         | _ => Some LibAttributeError
         end;
     build_error := fun _ _ => None |}.

Definition empty_world : World :=
  {| files := ∅; stdout := []; stdin := []; clock := sample_clock; ticks := 0;
     reportlab := sample_reportlab |}.

(** A world whose backing file holds the document [doc]. *)
Definition world_with (doc : value) (lines : list string) : World :=
  {| files := {[ default_data_file := JsonText doc ]}; stdout := [];
     stdin := lines; clock := sample_clock; ticks := 0;
     reportlab := sample_reportlab |}.

(** A command line giving only the listed options. *)
Definition command_line (amount holder tag description use_template : option string)
  : Cli.CommandLine :=
  {| Cli.opt_amount := amount;
     Cli.opt_account_holder := holder;
     Cli.opt_dolartag := tag;
     Cli.opt_client_name := None;
     Cli.opt_client_address := None;
     Cli.opt_client_ein := None;
     Cli.opt_contractor_name := None;
     Cli.opt_contractor_cuil := None;
     Cli.opt_contractor_tax_status := None;
     Cli.opt_service_description := description;
     Cli.opt_service_period := None;
     Cli.opt_issue_date := None;
     Cli.opt_additional_payment_info := None;
     Cli.opt_output := None;
     Cli.opt_save_template := None;
     Cli.opt_use_template := use_template;
     Cli.opt_list_templates := false |}.

(** The namespace [parse_args] gives for such a command line. *)
Definition namespace (amount : option spec_float)
  (holder tag : option string) (description : string)
  (use_template : option string) : Cli.Namespace :=
  {| Cli.amount := amount; Cli.account_holder := holder; Cli.dolartag := tag;
     Cli.client_name := None; Cli.client_address := None; Cli.client_ein := None;
     Cli.contractor_name := None; Cli.contractor_cuil := None;
     Cli.contractor_tax_status := None;
     Cli.service_description := description;
     Cli.service_period := None; Cli.issue_date := None;
     Cli.additional_payment_info := None; Cli.output := None;
     Cli.save_template := None; Cli.use_template := use_template;
     Cli.list_templates := false |}.

Definition sample_template : list (string * value) :=
  [ ("client_name", VStr "Rexo, Inc.");
    ("client_address", VStr "251 Little Falls Drive");
    ("client_ein", VStr "33-2631448");
    ("contractor_name", VStr "Ada");
    ("contractor_cuil", VStr "20-1");
    ("contractor_tax_status", VStr "");
    ("service_description", VStr "Consulting");
    ("account_holder", VStr "Ada");
    ("dolartag", VStr "$ada");
    ("additional_payment_info", VStr "") ].

Definition sample_args : Cli.Namespace :=
  namespace (Some (float_of_Z 5000)) (Some "Ada L.") None
    Cli.default_service_description (Some "rexo").

Definition sample_record : list (string * value) :=
  build_invoice_data sample_args sample_template "0001" "2025-01-31".

Definition sample_elements : list flowable :=
  match fst (build_elements sample_record empty_world) with
  | Ret elements => elements
  | Raise _ => []
  end.

Definition record_without_amount : list (string * value) :=
  [ ("invoice_number", VStr "0001");
    ("issue_date", VStr "2025-01-31");
    ("client_name", VStr "Rexo, Inc.");
    ("account_holder", VStr "Ada");
    ("dolartag", VStr "$ada") ].

(** The same record with a client name that opens a bold tag and does not
    close it. *)
Definition markup_record_without_amount : list (string * value) :=
  [ ("invoice_number", VStr "0001");
    ("issue_date", VStr "2025-01-31");
    ("client_name", VStr "<b>Acme");
    ("account_holder", VStr "Ada");
    ("dolartag", VStr "$ada") ].

Definition document_without_counter : value := VDict [("templates", VDict [])].

Definition document_without_templates : value := VDict [("last_invoice_number", VInt 7)].

Definition rexo_document (counter : Z) : value :=
  VDict [ ("last_invoice_number", VInt counter);
          ("templates", VDict [("rexo", VDict sample_template)]) ].

End Vocabulary.

(** * The onboarding script: [onboard.py] *)

(** [os.path.exists] is membership in the files of the world.  [int()] of
    a text reads an optional sign and decimal digits, with single
    underscores allowed between digits.  [str.lower] is the ASCII one: no
    letter outside ASCII is lowered to one of "yes" or "y". *)

Module Onboard.

(** [int(text)] for a string argument, base ten.  As for [float], a text
    that is not ASCII once stripped is left outside the model, and so is
    one of more than 4300 characters, where the interpreter may refuse the
    conversion for the number of its digits. *)
Definition py_int (text : string) : outcome Z :=
  if is_ascii (strip text) && (String.length (strip text) <=? 4300)%nat then
    let '(s, body) := read_sign (list_ascii_of_string (strip text)) in
    match digitpart false body with
    | ((_ :: _) as ds, []) => Ret (cond_Zopp s (Z_of_digits ds))
    | _ => Raise ValueError
    end
  else Raise (Unsupported "int of a text that is not ASCII or is too long").

(** [c * n] for a one-character string [c]. *)
Fixpoint repeat_char (c : ascii) (n : nat) : string :=
  match n with
  | O => EmptyString
  | S n' => String c (repeat_char c n')
  end.

(** [s.lower()] *)
Fixpoint lower_string (s : string) : string :=
  match s with
  | String c s' => String (lower c) (lower_string s')
  | EmptyString => EmptyString
  end.

Definition quote : string := String "034"%char EmptyString.
Definition rule : string := repeat_char "=" 60.
Definition thin_rule : string := repeat_char "-" 60.

Definition data_file : string := "invoice_data.json".

Definition number_prompt : string :=
  nl ++ "What should your first invoice number be? (e.g., 1 for 0001): ".

(** The [while True] loop asking for the first invoice number: one line
    per round, until one is a non-negative integer. *)
Fixpoint ask_start_number (lines : list string) (out : list out_event)
  : outcome Z * list string * list out_event :=
  let out' := (out ++ [Prompt number_prompt])%list in
  match lines with
  | [] => (Raise EOFError, [], out')
  | line :: rest =>
      match py_int (strip line) with
      | Ret start_num =>
          if start_num <? 0 then
            ask_start_number rest
              (out' ++ [Print "Please enter a non-negative number."])%list
          else (Ret start_num, rest, out')
      | Raise ValueError =>
          ask_start_number rest
            (out' ++ [Print "Invalid number. Please enter a whole number."])%list
      | Raise e => (Raise e, rest, out')
      end
  end.

Definition input_start_number : M Z :=
  fun w =>
    let '(r, rest, out) := ask_start_number (stdin w) (stdout w) in
    (r, {| files := files w; stdout := out; stdin := rest;
           clock := clock w; ticks := ticks w;
     reportlab := reportlab w |}).

(** [while not x: print(message); x = input(prompt).strip()], entered with
    [x] empty. *)
Fixpoint ask_again (message prompt : string) (lines : list string)
  (out : list out_event) : outcome string * list string * list out_event :=
  let out' := (out ++ [Print message; Prompt prompt])%list in
  match lines with
  | [] => (Raise EOFError, [], out')
  | line :: rest =>
      let x := strip line in
      if String.eqb x "" then ask_again message prompt rest out'
      else (Ret x, rest, out')
  end.

(** [x = input(first).strip()] followed by the loop above. *)
Definition input_required (first message prompt : string) : M string :=
  x <- input_stripped first ;;
  if String.eqb x "" then
    fun w =>
      let '(r, rest, out) := ask_again message prompt (stdin w) (stdout w) in
      (r, {| files := files w; stdout := out; stdin := rest;
             clock := clock w; ticks := ticks w;
     reportlab := reportlab w |})
  else ret x.

Definition template_data (contractor_name contractor_cuil contractor_tax_status
  account_holder dolartag : string) : value :=
  VDict
    [ ("client_name", VStr "Rexo, Inc.");
      ("client_address",
         VStr "251 Little Falls Drive, Wilmington, New Castle County, Delaware 19808");
      ("client_ein", VStr "33-2631448");
      ("contractor_name", VStr contractor_name);
      ("contractor_cuil", VStr contractor_cuil);
      ("contractor_tax_status", VStr contractor_tax_status);
      ("service_description", VStr "Contractor services - Software Engineer");
      ("account_holder", VStr account_holder);
      ("dolartag", VStr dolartag);
      ("additional_payment_info", VStr "") ].

(** The closing messages, from "Template 'rexo' created" to the end. *)
Definition summary (start_num : Z) (contractor_name contractor_cuil dolartag : string)
  : M unit :=
  print (nl ++ "✓ Template 'rexo' created successfully!") ;;;
  print ("✓ Next invoice will be #" ++ format_0d 4 start_num) ;;;
  print (nl ++ rule) ;;;
  print "   Setup Complete!" ;;;
  print rule ;;;
  print (nl ++ "Your configuration:") ;;;
  print ("  Contractor: " ++ contractor_name) ;;;
  print ("  CUIL: " ++ contractor_cuil) ;;;
  print ("  Dolartag: " ++ dolartag) ;;;
  print ("  Next Invoice: #" ++ format_0d 4 start_num) ;;;
  print (nl ++ rule) ;;;
  print "   How to Generate Invoices" ;;;
  print rule ;;;
  print (nl ++ "1. Generate a monthly invoice using your template:") ;;;
  print (nl ++ "   python invoice_generator.py \") ;;;
  print ("     --use-template " ++ quote ++ "rexo" ++ quote ++ " \") ;;;
  print "     --amount 5000 \" ;;;
  print ("     --service-period " ++ quote ++
         "Services provided during January 2025" ++ quote ++ " \") ;;;
  print ("     --issue-date " ++ quote ++ "2025-01-31" ++ quote ++ " \") ;;;
  print ("     --output " ++ quote ++ "invoice_january_2025.pdf" ++ quote) ;;;
  print (nl ++ "2. List your templates:") ;;;
  print (nl ++ "   python invoice_generator.py --list-templates") ;;;
  print (nl ++ "3. For help:") ;;;
  print (nl ++ "   python invoice_generator.py --help") ;;;
  print (nl ++ rule) ;;;
  print "You're all set! Generate your first invoice using the command above." ;;;
  print (rule ++ nl).

(** [main()] from the numbering step on. *)
Definition setup : M unit :=
  print (nl ++ thin_rule) ;;;
  print "STEP 1: Invoice Numbering" ;;;
  print thin_rule ;;;
  start_num <- input_start_number ;;
  let last_invoice_number := start_num - 1 in
  print (nl ++ thin_rule) ;;;
  print "STEP 2: Your Contractor Information" ;;;
  print thin_rule ;;;
  contractor_name <-
    input_required (nl ++ "Your full name: ") "Name is required." "Your full name: " ;;
  contractor_cuil <-
    input_required "Your CUIL number: " "CUIL is required." "Your CUIL number: " ;;
  print (nl ++ thin_rule) ;;;
  print "STEP 3: Payment Information (Dolarapp)" ;;;
  print thin_rule ;;;
  answer <-
    input_stripped (nl ++ "Dolarapp account holder name [" ++ contractor_name ++ "]: ") ;;
  let account_holder := if String.eqb answer "" then contractor_name else answer in
  dolartag <-
    input_required "Your Dolarapp dolartag (e.g., $username): "
      "Dolartag is required." "Your Dolarapp dolartag (e.g., $username): " ;;
  dolartag <-
    (if is_prefix "$" dolartag then ret dolartag
     else
       print ("Note: Adding $ prefix to dolartag: $" ++ dolartag) ;;;
       ret ("$" ++ dolartag)) ;;
  print (nl ++ thin_rule) ;;;
  print "STEP 4: Argentine Tax Status (Optional)" ;;;
  print thin_rule ;;;
  print (nl ++ "Options: monotributista, autónomo, or leave blank") ;;;
  contractor_tax_status <- input_stripped "Your tax status (optional): " ;;
  print (nl ++ thin_rule) ;;;
  print "STEP 5: Creating Template" ;;;
  print thin_rule ;;;
  let invoice_data :=
    VDict
      [ ("last_invoice_number", VInt last_invoice_number);
        ("templates",
           VDict [ ("rexo",
                    template_data contractor_name contractor_cuil
                      contractor_tax_status account_holder dolartag) ]) ] in
  write_file data_file (JsonText invoice_data) ;;;
  summary start_num contractor_name contractor_cuil dolartag.

(** [main()] of the onboarding script. *)
Definition main : M unit :=
  print (nl ++ rule) ;;;
  print "   Invoice Generator - Onboarding" ;;;
  print rule ;;;
  print (nl ++ "Welcome! This script will help you set up your invoice generator.") ;;;
  print "We'll collect your personal details and create a template for" ;;;
  print ("generating invoices for Rexo, Inc." ++ nl) ;;;
  existing <- read_file data_file ;;
  match existing with
  | Some _ =>
      print ("⚠️  Found existing " ++ data_file) ;;;
      answer <-
        input "Do you want to overwrite it? This will reset your invoice counter. (yes/no): " ;;
      let response := lower_string (strip answer) in
      if String.eqb response "yes" || String.eqb response "y" then setup
      else print "Onboarding cancelled."
  | None => setup
  end.

End Onboard.

(** * More vocabulary *)

Section MoreVocabulary.

Implicit Types (d ts : list (string * value)) (name : string) (w : World).

(** The template map of a document: empty when the key is absent, and
    undefined when the entry is not a dict. *)
Definition templates_of d : option (list (string * value)) :=
  match dict_lookup "templates" d with
  | None => Some []
  | Some (VDict ts) => Some ts
  | Some _ => None
  end.

End MoreVocabulary.

Section DialogueVocabulary.




(** The world reached from [w] when the files have become [F], [events]
    have been written to the output, [rest] is what is left of the input and
    the clock has been read [k] more times. *)
Definition state (F : gmap string file) (events : list out_event)
  (rest : list string) (k : nat) (w : World) : World :=
  {| files := F; stdout := (stdout w ++ events)%list; stdin := rest;
     clock := clock w; ticks := ticks w + k;
     reportlab := reportlab w |}.


(** An answer, or the default when the answer is blank. *)
Definition or_default (answer default : string) : string :=
  if String.eqb (strip answer) "" then default else strip answer.


(** A computation that never changes the files. *)
Definition quiet {A} (m : M A) : Prop :=
  forall w, files (snd (m w)) = files w.

(** A computation that never ends on the end of the input. *)
Definition no_eof {A} (m : M A) : Prop :=
  forall w, fst (m w) <> Raise EOFError.

(** A computation that has left the files alone whenever it ends on the
    end of the input. *)
Definition eof_keeps_files {A} (m : M A) : Prop :=
  forall w, fst (m w) = Raise EOFError -> files (snd (m w)) = files w.

(** A computation that has left the files alone whenever it fails. *)
Definition failure_keeps_files {A} (m : M A) : Prop :=
  forall w e, fst (m w) = Raise e -> files (snd (m w)) = files w.



(** Whether the command line and the template together give what
    argument mode needs: a non-zero amount, and the account holder and
    payment tag both given directly or both present in the template. *)
Definition sufficient (args : Cli.Namespace) (t : list (string * value)) : bool :=
  truthy (Cli.of_opt_float (Cli.amount args))
  && ((truthy (of_opt (Cli.account_holder args))
       && truthy (of_opt (Cli.dolartag args)))
      || (truthy (get t "account_holder") && truthy (get t "dolartag"))).







End DialogueVocabulary.


Section FurtherVocabulary.

(** The number an answer to the first-number prompt stands for, if it is
    accepted: a whole number that is not negative. *)
Definition start_answer (line : string) : option Z :=
  match Onboard.py_int (strip line) with
  | Ret n => if n <? 0 then None else Some n
  | Raise _ => None
  end.

(** An answer to the first-number prompt that is refused and asked
    again: [int] raises [ValueError] on it, or reads a negative number. *)
Definition start_refused (line : string) : Prop :=
  Onboard.py_int (strip line) = Raise ValueError
  \/ exists n, Onboard.py_int (strip line) = Ret n /\ n < 0.

(** An answer that is empty once stripped. *)
Definition blank (line : string) : Prop := strip line = "".

(** A payment tag with its dollar sign. *)
Definition with_dollar (tag : string) : string :=
  if is_prefix "$" tag then tag else "$" ++ tag.

(** The document onboarding writes, for the first number [start]. *)
Definition onboarded_document (start : Z)
  (name cuil status holder tag : string) : value :=
  VDict
    [ ("last_invoice_number", VInt (start - 1));
      ("templates",
         VDict [("rexo", Onboard.template_data name cuil status holder tag)]) ].


(** What the input must begin with for onboarding to go on: nothing when
    there is no store yet, a "yes" or "y" (in any case, blanks around it
    ignored) when there is one. *)
Definition consent (F : gmap string file) (answers : list string) : Prop :=
  match F !! Onboard.data_file with
  | None => answers = []
  | Some _ =>
      exists a, answers = [a]
                /\ (Onboard.lower_string (strip a) = "yes"
                    \/ Onboard.lower_string (strip a) = "y")
  end.

(** A computation that never fails. *)
Definition succeeds {A} (m : M A) : Prop :=
  forall w, exists a, fst (m w) = Ret a.




(** The fields of a record that decide its layout. *)
Definition layout_fields : list string :=
  [ "invoice_number"; "issue_date";
    "contractor_name"; "contractor_cuil"; "contractor_tax_status";
    "client_name"; "client_address"; "client_ein";
    "service_description"; "service_period"; "amount";
    "account_holder"; "dolartag"; "additional_payment_info" ].

(** The party fields, each of which gives one line when it is not empty. *)
Definition party_fields : list string :=
  [ "contractor_name"; "contractor_cuil"; "contractor_tax_status";
    "client_name"; "client_address"; "client_ein" ].

End FurtherVocabulary.

(** * Verification *)

(** ** Facts about dicts and the monad *)

Section DictFacts.

Implicit Types (d : list (string * value)) (k : string) (v : value).

Lemma dict_lookup_store_eq k v d : dict_lookup k (dict_store k v d) = Some v.
Proof.
  induction d as [|[k' v'] d IH]; simpl.
  - now rewrite String.eqb_refl.
  - destruct (String.eqb k k') eqn:E; simpl.
    + now rewrite String.eqb_refl.
    + now rewrite E.
Qed.

Lemma dict_lookup_store_ne k k' v d :
  k <> k' -> dict_lookup k' (dict_store k v d) = dict_lookup k' d.
Proof.
  intros Hne. induction d as [|[k0 v0] d IH]; simpl.
  - destruct (String.eqb k' k) eqn:E; [|reflexivity].
    apply String.eqb_eq in E. congruence.
  - destruct (String.eqb k k0) eqn:E; simpl.
    + apply String.eqb_eq in E. subst k0.
      destruct (String.eqb k' k) eqn:E'; [|reflexivity].
      apply String.eqb_eq in E'. congruence.
    + now rewrite IH.
Qed.

Lemma dict_store_store k v v' d :
  dict_store k v' (dict_store k v d) = dict_store k v' d.
Proof.
  induction d as [|[k0 v0] d IH]; simpl.
  - now rewrite String.eqb_refl.
  - destruct (String.eqb k k0) eqn:E; simpl.
    + now rewrite String.eqb_refl.
    + now rewrite E, IH.
Qed.

End DictFacts.

Lemma string_length_append (s t : string) :
  String.length (s ++ t) = (String.length s + String.length t)%nat.
Proof.
  induction s as [|a s IH]; [reflexivity|].
  change (S (String.length (s ++ t)) = S (String.length s + String.length t)).
  now rewrite IH.
Qed.

Lemma zeros_length (k : nat) : String.length (zeros k) = k.
Proof. induction k; simpl; congruence. Qed.

(** ** The numbering store *)

Section Numbering.

Lemma digits_decimal (n : Z) : 0 <= n -> digits (Z.abs_N n) = decimal n.
Proof.
  intros Hn. unfold digits, decimal, NilZero.string_of_int, Z.to_int.
  destruct n as [|p|p]; try lia; reflexivity.
Qed.

Lemma format_0d_nonneg (width : nat) (n : Z) :
  0 <= n -> format_0d width n = zero_padded width (decimal n).
Proof.
  intros Hn. unfold format_0d, zero_padded.
  rewrite digits_decimal by assumption.
  destruct (n <? 0) eqn:E; [apply Z.ltb_lt in E; lia|].
  simpl. now rewrite Nat.sub_0_r.
Qed.

Lemma get_next_invoice_number_int (self : InvoiceNumberManager)
  (d : list (string * value)) (n : Z) (w : World) :
  data self = VDict d ->
  dict_lookup "last_invoice_number" d = Some (VInt n) ->
  get_next_invoice_number self w =
    (Ret (format_0d 4 (n + 1),
          {| data_file := data_file self; data := with_counter d (n + 1) |}),
     {| files := <[data_file self := JsonText (with_counter d (n + 1))]> (files w);
        stdout := stdout w; stdin := stdin w; clock := clock w; ticks := ticks w;
     reportlab := reportlab w |}).
Proof.
  intros Hd Hn. unfold get_next_invoice_number, bind, lift, _save_data, write_file, ret.
  rewrite Hd. simpl. rewrite Hn. simpl.
  rewrite dict_lookup_store_eq. reflexivity.
Qed.

(** [get_current_invoice_number] right after an allocation shows the number
    just allocated, and changes nothing. *)
Lemma peek_after_allocation (self : InvoiceNumberManager)
  (d : list (string * value)) (n : Z) (w : World) :
  data self = VDict d ->
  dict_lookup "last_invoice_number" d = Some (VInt n) ->
  (r <- get_next_invoice_number self ;;
   current <- get_current_invoice_number (snd r) ;;
   ret (fst r, current)) w
  = (Ret (format_0d 4 (n + 1), format_0d 4 (n + 1)),
     snd (get_next_invoice_number self w)).
Proof.
  intros Hd Hn. unfold bind at 1.
  rewrite (get_next_invoice_number_int self d n w Hd Hn).
  cbn [fst snd]. unfold get_current_invoice_number, bind, lift, with_counter.
  cbn [data getitem]. now rewrite dict_lookup_store_eq.
Qed.

Lemma allocate_repeatedly_spec (n : nat) :
  forall (self : InvoiceNumberManager) (d : list (string * value)) (start : Z) (w : World),
    data self = VDict d ->
    dict_lookup "last_invoice_number" d = Some (VInt start) ->
    fst (allocate_repeatedly n self w) =
      Ret (map (fun i : nat =>
                  (format_0d 4 (start + Z.of_nat i),
                   Some (JsonText (with_counter d (start + Z.of_nat i)))))
               (seq 1 n)).
Proof.
  induction n as [|n IH]; intros self d start w Hd Hs; [reflexivity|].
  cbn [allocate_repeatedly]. unfold bind at 1.
  rewrite (get_next_invoice_number_int self d start w Hd Hs).
  unfold bind at 1. unfold read_file at 1. cbn [files snd fst data_file].
  rewrite lookup_insert_eq.
  set (self' := {| data_file := data_file self; data := with_counter d (start + 1) |}).
  set (w' := Build_World _ _ _ _ _ _).
  specialize (IH self' (dict_store "last_invoice_number" (VInt (start + 1)) d)
                (start + 1) w' eq_refl (dict_lookup_store_eq _ _ _)).
  unfold bind. destruct (allocate_repeatedly n self' w') as [[rest|e] w''];
    cbn [fst] in IH; [|discriminate].
  injection IH as ->. cbn [fst ret]. f_equal.
  cbn [seq map]. f_equal.
  rewrite <- (seq_shift n 1), map_map. apply map_ext. intros i.
  unfold with_counter. rewrite dict_store_store.
  replace (start + 1 + Z.of_nat i) with (start + Z.of_nat (S i)) by lia.
  reflexivity.
Qed.

End Numbering.

Section NumberingClaims.

Lemma zero_padded_length (width : nat) (s : string) :
  String.length (zero_padded width s) = Nat.max width (String.length s).
Proof.
  unfold zero_padded. rewrite string_length_append, zeros_length. lia.
Qed.

(** C1. Starting from any counter value [start] (from -1 on, the value
    onboarding stores for a first invoice numbered 0), [n] successive calls
    of [get_next_invoice_number] return the decimal numerals of start+1, ...,
    start+n, each padded with zeros to at least four characters and never
    truncated, and after each call the backing file holds the document with
    the counter that call returned. *)
Theorem allocate_next_sequence (n : nat) (self : InvoiceNumberManager)
  (d : list (string * value)) (start : Z) (w : World) :
  data self = VDict d ->
  dict_lookup "last_invoice_number" d = Some (VInt start) ->
  -1 <= start ->
  fst (allocate_repeatedly n self w) =
    Ret (map (fun i : nat =>
                (zero_padded 4 (decimal (start + Z.of_nat i)),
                 Some (JsonText (with_counter d (start + Z.of_nat i)))))
             (seq 1 n))
  /\ (forall k : Z,
        String.length (zero_padded 4 (decimal k))
        = Nat.max 4 (String.length (decimal k)))
  /\ zero_padded 4 (decimal 1) = "0001"
  /\ zero_padded 4 (decimal 10000) = "10000".
Proof.
  intros Hd Hs Hstart. split; [|split; [|split]]; try reflexivity.
  - rewrite (allocate_repeatedly_spec n self d start w Hd Hs).
    f_equal. apply map_ext_in. intros i Hi. apply in_seq in Hi.
    rewrite format_0d_nonneg by lia. reflexivity.
  - intros k. apply zero_padded_length.
Qed.

Lemma allocate_next_sequence_witness :
  fst (allocate_repeatedly 3
         {| data_file := default_data_file;
            data := VDict [("last_invoice_number", VInt 9998); ("templates", VDict [])] |}
         empty_world)
  = Ret [ ("9999", Some (JsonText (VDict [("last_invoice_number", VInt 9999);
                                          ("templates", VDict [])])));
          ("10000", Some (JsonText (VDict [("last_invoice_number", VInt 10000);
                                           ("templates", VDict [])])));
          ("10001", Some (JsonText (VDict [("last_invoice_number", VInt 10001);
                                           ("templates", VDict [])]))) ].
Proof.
  exact (proj1 (allocate_next_sequence 3
                  {| data_file := default_data_file;
                     data := VDict [("last_invoice_number", VInt 9998);
                                    ("templates", VDict [])] |}
                  [("last_invoice_number", VInt 9998); ("templates", VDict [])]
                  9998 empty_world eq_refl eq_refl ltac:(lia))).
Defined.

(** C4. When the backing file is absent, loading gives the zero document
    (counter 0, no templates); the first allocation on it returns "0001"
    and leaves a file whose document has the counter at 1. *)
Theorem absent_store_first_allocation (name : string) (w : World) :
  files w !! name = None ->
  _load_data name w = (Ret zero_document, w)
  /\ exists self' w',
       (self <- __init__ name ;; get_next_invoice_number self) w
         = (Ret ("0001", self'), w')
       /\ files w' !! name
          = Some (JsonText (VDict [("last_invoice_number", VInt 1);
                                   ("templates", VDict [])])).
Proof.
  intros Habsent.
  assert (Hload : _load_data name w = (Ret zero_document, w)).
  { unfold _load_data, bind, read_file. now rewrite Habsent. }
  split; [exact Hload|].
  unfold __init__, bind at 1 2. rewrite Hload. cbn [ret].
  rewrite (get_next_invoice_number_int
             {| data_file := name; data := zero_document |}
             [("last_invoice_number", VInt 0); ("templates", VDict [])]
             0 w eq_refl eq_refl).
  eexists _, _. split; [reflexivity|].
  cbn [files data_file]. now rewrite lookup_insert_eq.
Qed.

Lemma absent_store_first_allocation_witness :
  _load_data default_data_file empty_world = (Ret zero_document, empty_world)
  /\ exists self' w',
       (self <- __init__ default_data_file ;; get_next_invoice_number self) empty_world
         = (Ret ("0001", self'), w')
       /\ files w' !! default_data_file
          = Some (JsonText (VDict [("last_invoice_number", VInt 1);
                                   ("templates", VDict [])])).
Proof.
  apply (absent_store_first_allocation default_data_file empty_world).
  reflexivity.
Defined.

End NumberingClaims.

(** ** The record builder: merge precedence and the template projection *)

Section Builder.

Implicit Types (d t : list (string * value)) (k : string).

Lemma dict_lookup_not_key k t : ~ In k (dict_keys t) -> dict_lookup k t = None.
Proof.
  induction t as [|[k' v'] t IH]; simpl; [reflexivity|]. intros Hn.
  destruct (String.eqb k k') eqn:E.
  - apply String.eqb_eq in E. subst. tauto.
  - apply IH. tauto.
Qed.

Lemma project_spec (fields : list string) d :
  forall t, project fields d = Ret t ->
    dict_keys t = fields
    /\ (forall k v, In (k, v) t -> dict_lookup k d = Some v).
Proof.
  induction fields as [|k fields IH]; simpl; intros t H.
  - injection H as <-. split; [reflexivity|]. intros k v [].
  - unfold item, getitem in H.
    destruct (dict_lookup k d) as [v|] eqn:Hk; [|discriminate].
    destruct (project fields d) as [t'|e]; [|discriminate].
    injection H as <-. destruct (IH t' eq_refl) as [Hkeys Hvals].
    split; [simpl; now f_equal|].
    intros k0 v0 [Heq|Hin]; [injection Heq as <- <-; exact Hk|eauto].
Qed.


Lemma project_defined (fields : list string) d :
  (forall k, In k fields -> exists v, dict_lookup k d = Some v) ->
  exists t, project fields d = Ret t.
Proof.
  induction fields as [|k fields IH]; intros H; [now eexists|].
  destruct (H k (or_introl eq_refl)) as [v Hv].
  destruct IH as [t Ht]; [intros k' Hk'; apply H; now right|].
  cbn [project]. unfold item, getitem. rewrite Hv, Ht. now eexists.
Qed.

(** C6. For every invoice record (one that has the ten template-eligible
    fields, as every record [main] builds has), the save-as-template
    projection produces a template with exactly the ten template-eligible
    keys, each with the record's value, and with no invoice number, issue
    date, amount or service period, whatever the record holds for them. *)
Theorem template_projection_excludes_per_invoice_fields d :
  (forall k, In k template_fields -> exists v, dict_lookup k d = Some v) ->
  exists t,
    template_to_save d = Ret t
    /\ dict_keys t = template_fields
    /\ (forall k v, In (k, v) t -> dict_lookup k d = Some v)
    /\ (forall k, In k per_invoice_fields -> dict_lookup k t = None).
Proof.
  intros Hfields.
  destruct (project_defined template_fields d Hfields) as [t H].
  exists t. split; [exact H|].
  destruct (project_spec template_fields d t H) as [Hkeys Hvals].
  split; [exact Hkeys|]. split; [exact Hvals|].
  intros k Hk. apply dict_lookup_not_key. rewrite Hkeys.
  simpl in Hk. intros Hin. simpl in Hin.
  repeat (destruct Hk as [<-|Hk];
          [repeat (destruct Hin as [Hin|Hin]; [discriminate Hin|]); exact Hin|]).
  exact Hk.
Qed.

End Builder.

Section BuilderClaims.

Lemma sample_args_parsed :
  Cli.parse_args (command_line (Some "5000") (Some "Ada L.") None None (Some "rexo"))
  = Ret sample_args.
Proof. reflexivity. Qed.

Lemma template_projection_excludes_per_invoice_fields_witness :
  exists t,
    template_to_save sample_record = Ret t
    /\ dict_keys t = template_fields
    /\ (forall k v, In (k, v) t -> dict_lookup k sample_record = Some v)
    /\ (forall k, In k per_invoice_fields -> dict_lookup k t = None).
Proof.
  apply (template_projection_excludes_per_invoice_fields sample_record).
  intros k Hk. simpl in Hk.
  repeat (destruct Hk as [<-|Hk]; [eexists; reflexivity|]).
  destruct Hk.
Defined.

Lemma merge_spec (explicit : option string) (t : list (string * value)) (k : string) :
  merge explicit t k = spec_merge explicit (dict_lookup k t) (VStr "").
Proof.
  unfold merge, spec_merge, py_or. destruct explicit as [s|]; simpl; [|reflexivity].
  now destruct (String.eqb s "").
Qed.

Lemma parse_args_fields (cl : Cli.CommandLine) (args : Cli.Namespace) :
  Cli.parse_args cl = Ret args ->
  Cli.account_holder args = Cli.opt_account_holder cl
  /\ Cli.dolartag args = Cli.opt_dolartag cl
  /\ Cli.client_name args = Cli.opt_client_name cl
  /\ Cli.client_address args = Cli.opt_client_address cl
  /\ Cli.client_ein args = Cli.opt_client_ein cl
  /\ Cli.contractor_name args = Cli.opt_contractor_name cl
  /\ Cli.contractor_cuil args = Cli.opt_contractor_cuil cl
  /\ Cli.contractor_tax_status args = Cli.opt_contractor_tax_status cl
  /\ Cli.additional_payment_info args = Cli.opt_additional_payment_info cl
  /\ Cli.service_period args = Cli.opt_service_period cl
  /\ Cli.issue_date args = Cli.opt_issue_date cl
  /\ Cli.service_description args
     = match Cli.opt_service_description cl with
       | Some s => s
       | None => Cli.default_service_description
       end.
Proof.
  unfold Cli.parse_args. intros H.
  destruct (Cli.opt_amount cl) as [text|];
    [destruct (py_float text) as [x|[]]; try discriminate H|];
    injection H as <-; repeat split.
Qed.

(** C2, amended. In the record [main] builds, each of the nine fields
    merged with [or] holds the explicit value when it is non-empty,
    otherwise the template's value when the template has the key, otherwise
    the empty string; the service period and the issue date, which no
    template carries, hold the explicit value when non-empty and otherwise
    the empty string and today's date; the service description holds the
    explicit value whenever one is given that differs from the default text
    (an empty one included), and otherwise the template's value when the
    template has one, otherwise the default text. *)
Theorem merge_precedence (cl : Cli.CommandLine) (args : Cli.Namespace)
  (t : list (string * value)) (n date : string) (w : World) :
  Cli.parse_args cl = Ret args ->
  let record := build_invoice_data args t n date in
  (forall k explicit, In (k, explicit) (explicit_options cl) ->
     dict_lookup k record = Some (spec_merge explicit (dict_lookup k t) (VStr "")))
  /\ dict_lookup "service_period" record
     = Some (spec_merge (Cli.opt_service_period cl) None (VStr ""))
  /\ dict_lookup "issue_date" record = Some (VStr date)
  /\ (exists chosen,
        fst (choose_issue_date args w) = Ret chosen
        /\ VStr chosen = spec_merge (Cli.opt_issue_date cl) None
                           (VStr (strftime_date (clock w (ticks w)))))
  /\ dict_lookup "service_description" record
     = Some (match Cli.opt_service_description cl with
             | Some s =>
                 if String.eqb s Cli.default_service_description
                 then spec_merge None (dict_lookup "service_description" t)
                        (VStr Cli.default_service_description)
                 else VStr s
             | None => spec_merge None (dict_lookup "service_description" t)
                         (VStr Cli.default_service_description)
             end).
Proof.
  intros Hparse record.
  destruct (parse_args_fields cl args Hparse)
    as (Hah & Hdt & Hcn & Hca & Hce & Hkn & Hkc & Hkt & Hap & Hsp & Hid & Hsd).
  split; [|split; [|split; [|split]]].
  - intros k explicit Hin. simpl in Hin.
    repeat (destruct Hin as [Heq|Hin];
            [injection Heq as <- <-; cbn; rewrite merge_spec; congruence|]).
    destruct Hin.
  - cbn. rewrite Hsp. unfold spec_merge, py_or.
    destruct (Cli.opt_service_period cl) as [s|]; simpl; [|reflexivity].
    now destruct (String.eqb s "").
  - reflexivity.
  - unfold choose_issue_date. rewrite Hid.
    destruct (Cli.opt_issue_date cl) as [s|]; simpl.
    + destruct (String.eqb s ""); simpl; eexists; split; reflexivity.
    + eexists; split; reflexivity.
  - cbn. unfold merge_service_description. rewrite Hsd.
    destruct (Cli.opt_service_description cl) as [s|]; simpl.
    + destruct (String.eqb s Cli.default_service_description) eqn:E;
        [|reflexivity].
      apply String.eqb_eq in E. rewrite E. reflexivity.
    + reflexivity.
Qed.

Lemma merge_precedence_witness :
  Cli.parse_args (command_line (Some "5000") (Some "Ada L.") None None (Some "rexo"))
  = Ret sample_args
  /\ dict_lookup "account_holder" sample_record = Some (VStr "Ada L.")
  /\ dict_lookup "dolartag" sample_record = Some (VStr "$ada")
  /\ dict_lookup "service_description" sample_record = Some (VStr "Consulting").
Proof.
  destruct (merge_precedence
              (command_line (Some "5000") (Some "Ada L.") None None (Some "rexo"))
              sample_args sample_template "0001" "2025-01-31" empty_world
              sample_args_parsed)
    as (Hor & _ & _ & _ & Hsd).
  split; [exact sample_args_parsed|].
  split; [apply (Hor "account_holder" (Some "Ada L.")); simpl; tauto|].
  split; [apply (Hor "dolartag" None); simpl; tauto|].
  exact Hsd.
Defined.

(** C2 as stated fails for the service description.  Given explicitly with
    the text of the default, it is non-empty and yet the template's value is
    used; given explicitly empty, it is kept although the template has a
    value. *)
Lemma merge_precedence_counterexample :
  let claimed (cl : Cli.CommandLine) :=
    Some (spec_merge (Cli.opt_service_description cl)
            (dict_lookup "service_description" sample_template)
            (VStr Cli.default_service_description)) in
  let built (args : Cli.Namespace) :=
    dict_lookup "service_description"
      (build_invoice_data args sample_template "0001" "2025-01-31") in
  let cl1 := command_line (Some "5000") None None
               (Some "Contractor services - Software Engineer") (Some "rexo") in
  let args1 := namespace (Some (float_of_Z 5000)) None None
                 "Contractor services - Software Engineer" (Some "rexo") in
  let cl2 := command_line (Some "5000") None None (Some "") (Some "rexo") in
  let args2 := namespace (Some (float_of_Z 5000)) None None "" (Some "rexo") in
  (Cli.parse_args cl1 = Ret args1
   /\ built args1 = Some (VStr "Consulting")
   /\ claimed cl1 = Some (VStr "Contractor services - Software Engineer")
   /\ built args1 <> claimed cl1)
  /\ (Cli.parse_args cl2 = Ret args2
      /\ built args2 = Some (VStr "")
      /\ claimed cl2 = Some (VStr "Consulting")
      /\ built args2 <> claimed cl2).
Proof.
  cbv zeta. repeat split; try reflexivity; cbv; discriminate.
Qed.

End BuilderClaims.

(** ** The layout engine *)

Section Running.

Lemma bind_run {A B} (m : M A) (k : A -> M B) (a : A) (w w' : World) :
  m w = (Ret a, w') -> bind m k w = k a w'.
Proof. intros H. unfold bind. now rewrite H. Qed.

Lemma bind_fail {A B} (m : M A) (k : A -> M B) (e : exn) (w w' : World) :
  m w = (Raise e, w') -> bind m k w = (Raise e, w').
Proof. intros H. unfold bind. now rewrite H. Qed.

Lemma bind_ret_inv {A B} (m : M A) (k : A -> M B) (w : World) (b : B) :
  fst (bind m k w) = Ret b ->
  exists a w', m w = (Ret a, w') /\ fst (k a w') = Ret b.
Proof.
  unfold bind. destruct (m w) as [[a|e] w']; [|discriminate].
  intros H. now exists a, w'.
Qed.

Lemma dict_keys_store (k : string) (v : value) (d : list (string * value)) :
  dict_keys (dict_store k v d)
  = match dict_lookup k d with
    | Some _ => dict_keys d
    | None => (dict_keys d ++ [k])%list
    end.
Proof.
  induction d as [|[k' v'] d IH]; [reflexivity|]. simpl.
  destruct (String.eqb k k') eqn:E.
  - apply String.eqb_eq in E. now subst.
  - simpl. rewrite IH. now destruct (dict_lookup k d).
Qed.

End Running.

Section LayoutFacts.

Implicit Types (d : list (string * value)) (k : string) (w : World).

Lemma pure_ret {A} (a : A) : pure (ret a).
Proof. now exists (Ret a). Qed.

Lemma pure_lift {A} (o : outcome A) : pure (lift o).
Proof. now exists o. Qed.

Lemma pure_bind {A B} (m : M A) (k : A -> M B) :
  pure m -> (forall a, pure (k a)) -> pure (bind m k).
Proof.
  intros [o Hm] Hk. destruct o as [a|e].
  - destruct (Hk a) as [o' Hk']. exists o'. intros w.
    unfold bind. now rewrite Hm, Hk'.
  - exists (Raise e). intros w. unfold bind. now rewrite Hm.
Qed.

Lemma steady_ret {A} (a : A) : steady (ret a).
Proof. intros w. now split. Qed.

Lemma steady_lift {A} (o : outcome A) : steady (lift o).
Proof. intros w. now split. Qed.

Lemma steady_paragraph (text : value) (style : ParagraphStyle) :
  steady (paragraph text style).
Proof.
  intros w. unfold paragraph. split.
  - now destruct (paragraph_error (reportlab w) text style).
  - intros w' ->. now destruct (paragraph_error (reportlab w) text style).
Qed.

Lemma steady_bind {A B} (m : M A) (k : A -> M B) :
  steady m -> (forall a, steady (k a)) -> steady (bind m k).
Proof.
  intros Hm Hk w. destruct (Hm w) as [Hw Hf]. unfold bind. split.
  - destruct (m w) as [[a|e] w1]; cbn [snd] in *; subst; [apply Hk|reflexivity].
  - intros w' Hr. specialize (Hf w' Hr). destruct (Hm w') as [Hw' _].
    destruct (m w) as [[a|e] w1], (m w') as [[a'|e'] w1'];
      cbn [fst snd] in *; subst; try discriminate.
    + injection Hf as ->. now apply Hk.
    + now injection Hf as ->.
Qed.

Ltac steady_step :=
  first [ apply steady_ret
        | apply steady_lift
        | apply steady_paragraph
        | apply steady_bind; [|intros ?]
        | match goal with
          | |- steady (if ?b then _ else _) => destruct b
          end ].

Lemma optional_line_steady d k (text : value -> outcome value) :
  steady (optional_line d k text).
Proof. unfold optional_line. repeat steady_step. Qed.

Lemma build_elements_steady d : steady (build_elements d).
Proof.
  unfold build_elements.
  repeat first [ apply optional_line_steady | steady_step ].
Qed.

Lemma build_elements_world d w : snd (build_elements d w) = w.
Proof. apply build_elements_steady. Qed.

Lemma build_elements_library d w w' :
  reportlab w' = reportlab w ->
  fst (build_elements d w') = fst (build_elements d w).
Proof. apply build_elements_steady. Qed.

Lemma build_elements_run d w :
  build_elements d w = (fst (build_elements d w), w).
Proof.
  rewrite <- (build_elements_world d w) at 3. now destruct (build_elements d w).
Qed.

Lemma bind_lift_ret {A B} (a : A) (k : A -> M B) w :
  bind (lift (Ret a)) k w = k a w.
Proof. reflexivity. Qed.

Lemma bind_lift_raise {A B} (e : exn) (k : A -> M B) w :
  bind (lift (@Raise A e)) k w = (Raise e, w).
Proof. reflexivity. Qed.

Lemma bind_ret {A B} (a : A) (k : A -> M B) w : bind (ret a) k w = k a w.
Proof. reflexivity. Qed.

Lemma doc_build_run (name : string) (elements : list flowable) w :
  doc_build name letter_geometry elements w
  = match build_error (reportlab w) letter_geometry elements with
    | Some e =>
        (Raise (exn_of_library e),
         {| files := files w; stdout := stdout w; stdin := stdin w;
            clock := clock w; ticks := S (ticks w); reportlab := reportlab w |})
    | None =>
        (Ret tt,
         {| files :=
              <[name := PdfDocument letter_geometry elements (clock w (ticks w))]>
                (files w);
            stdout := stdout w; stdin := stdin w; clock := clock w;
            ticks := S (ticks w); reportlab := reportlab w |})
    end.
Proof.
  unfold doc_build, bind, now, write_file. cbn [reportlab].
  now destruct (build_error (reportlab w) letter_geometry elements).
Qed.

Lemma generate_pdf_run d (name : string) w :
  generate_pdf {| invoice_data := d |} name w =
    match fst (build_elements d w) with
    | Ret elements =>
        (doc_build name letter_geometry elements ;;; ret name)%py w
    | Raise e => (Raise e, w)
    end.
Proof.
  unfold generate_pdf. cbn [invoice_data]. unfold bind at 1.
  rewrite build_elements_run. now destruct (fst (build_elements d w)).
Qed.

End LayoutFacts.

Section LayoutClaims.

Implicit Types (d : list (string * value)) (k : string) (w : World).

(** C9, amended. Laying out a record does not depend on the run: in any
    two worlds with the same reportlab (whatever their clocks, inputs and
    files) the same record gives the same sequence of flowables with the
    same texts, or the same error, and leaves the world as it is.  The two
    renderings succeed or fail alike; when they succeed each file holds
    that same story and the time its own build read, so the documents
    differ by that time alone; when they fail no file is written. *)
Theorem rendering_deterministic d (name : string) w1 w2 :
  reportlab w1 = reportlab w2 ->
  let run := generate_pdf {| invoice_data := d |} name in
  fst (build_elements d w1) = fst (build_elements d w2)
  /\ snd (build_elements d w1) = w1
  /\ fst (run w1) = fst (run w2)
  /\ match fst (run w1) with
     | Ret _ =>
         exists elements,
           fst (build_elements d w1) = Ret elements
           /\ files (snd (run w1)) !! name
              = Some (PdfDocument letter_geometry elements (clock w1 (ticks w1)))
           /\ files (snd (run w2)) !! name
              = Some (PdfDocument letter_geometry elements (clock w2 (ticks w2)))
     | Raise _ =>
         files (snd (run w1)) = files w1 /\ files (snd (run w2)) = files w2
     end.
Proof.
  intros Hlib run. unfold run. rewrite !generate_pdf_run.
  rewrite (build_elements_library d w2 w1 Hlib), build_elements_world.
  split; [reflexivity|]. split; [reflexivity|].
  destruct (fst (build_elements d w2)) as [elements|e].
  - unfold bind. rewrite !doc_build_run, Hlib.
    destruct (build_error (reportlab w2) letter_geometry elements) as [le|];
      cbn [fst snd files ret].
    + repeat split.
    + split; [reflexivity|]. exists elements.
      rewrite !lookup_insert_eq. repeat split.
  - cbn [fst snd]. repeat split.
Qed.

Lemma rendering_deterministic_witness :
  let run := generate_pdf {| invoice_data := sample_record |} "invoice.pdf" in
  let w1 := empty_world in
  let w2 := world_with (rexo_document 7) ["unread"] in
  fst (build_elements sample_record w1) = fst (build_elements sample_record w2)
  /\ snd (build_elements sample_record w1) = w1
  /\ fst (run w1) = fst (run w2)
  /\ match fst (run w1) with
     | Ret _ =>
         exists elements,
           fst (build_elements sample_record w1) = Ret elements
           /\ files (snd (run w1)) !! "invoice.pdf"
              = Some (PdfDocument letter_geometry elements (clock w1 (ticks w1)))
           /\ files (snd (run w2)) !! "invoice.pdf"
              = Some (PdfDocument letter_geometry elements (clock w2 (ticks w2)))
     | Raise _ =>
         files (snd (run w1)) = files w1 /\ files (snd (run w2)) = files w2
     end.
Proof.
  exact (rendering_deterministic sample_record "invoice.pdf" empty_world
           (world_with (rexo_document 7) ["unread"]) eq_refl).
Defined.

(** Against C9 as stated: the same record rendered at two readings of the
    clock gives the same story and two different documents, each holding
    the time of its own build. *)
Lemma rendering_deterministic_counterexample :
  let run := generate_pdf {| invoice_data := sample_record |} "invoice.pdf" in
  let first :=
    {| files := ∅; stdout := []; stdin := []; clock := ticking_clock; ticks := 0;
       reportlab := sample_reportlab |} in
  let second :=
    {| files := ∅; stdout := []; stdin := []; clock := ticking_clock; ticks := 1;
       reportlab := sample_reportlab |} in
  let one := files (snd (run first)) !! "invoice.pdf" in
  let other := files (snd (run second)) !! "invoice.pdf" in
  fst (run first) = Ret "invoice.pdf"
  /\ fst (run second) = Ret "invoice.pdf"
  /\ story_of one = Some sample_elements
  /\ story_of other = Some sample_elements
  /\ created_at one
     = Some {| year := 2025; month := 1; day := 31;
               hour := 9; minute := 5; second := 7 |}
  /\ created_at other
     = Some {| year := 2025; month := 1; day := 31;
               hour := 9; minute := 5; second := 8 |}
  /\ one <> other.
Proof.
  cbv zeta. rewrite !generate_pdf_run.
  assert (H1 : forall w, reportlab w = sample_reportlab ->
                 fst (build_elements sample_record w) = Ret sample_elements).
  { intros w Hw.
    rewrite (build_elements_library sample_record empty_world w) by now symmetry.
    reflexivity. }
  rewrite !H1 by reflexivity.
  unfold bind. rewrite !doc_build_run. cbn [build_error sample_reportlab reportlab].
  cbn [fst snd files ret]. rewrite !lookup_insert_eq.
  repeat split. discriminate.
Qed.

End LayoutClaims.

Section RequiredFields.

Implicit Types (d : list (string * value)) (k : string) (w : World).

Lemma printable_str v : printable v = true -> exists s, py_str v = Ret s.
Proof. unfold printable. destruct (py_str v) as [s|e]; [eauto|discriminate]. Qed.

Lemma bind_lift {A B} (o : outcome A) (k : A -> M B) w :
  bind (lift o) k w = match o with Ret a => k a w | Raise e => (Raise e, w) end.
Proof. now destruct o. Qed.

Lemma paragraph_cases (text : value) (style : ParagraphStyle) w :
  paragraph text style w = (Ret (Paragraph text style), w)
  \/ exists e, paragraph text style w = (Raise e, w)
               /\ library_raises [(text, style)] w e.
Proof.
  unfold paragraph.
  destruct (paragraph_error (reportlab w) text style) as [le|] eqn:E;
    [right|now left].
  exists (exn_of_library le). split; [reflexivity|].
  exists text, style, le. cbn [In]. tauto.
Qed.

Lemma optional_line_cases d k (text : value -> outcome value) w :
  (forall v, dict_lookup k d = Some v -> exists t, text v = Ret t) ->
  (exists l, optional_line d k text w = (Ret l, w))
  \/ exists e, optional_line d k text w = (Raise e, w)
               /\ library_raises (line_paragraph d k text) w e.
Proof.
  intros Ht. unfold optional_line, line_paragraph, get, item, getitem.
  destruct (dict_lookup k d) as [v|]; [|left; now eexists].
  destruct (truthy v); [|left; now eexists].
  destruct (Ht v eq_refl) as [t Hv].
  rewrite !bind_lift. cbn [and_then]. rewrite Hv.
  destruct (paragraph_cases t normal_style w) as [Hp|[e [Hp Hl]]].
  - left. rewrite (bind_run _ _ _ _ _ Hp). now eexists.
  - right. exists e. now rewrite (bind_fail _ _ _ _ _ Hp).
Qed.

Lemma library_raises_incl (ps qs : list (value * ParagraphStyle)) w (e : exn) :
  incl ps qs -> library_raises ps w e -> library_raises qs w e.
Proof.
  intros Hi (text & style & le & Hin & H). exists text, style, le.
  split; [now apply Hi|exact H].
Qed.

Lemma labelled_defined (label : string) v :
  printable v = true -> exists t, labelled label v = Ret t.
Proof.
  intros Hp. destruct (printable_str v Hp) as [s Hs].
  unfold labelled. rewrite Hs. now eexists.
Qed.

Lemma line_description_defined d :
  invoice_record d -> exists v, line_description d = Ret v.
Proof.
  intros R. unfold line_description, get, item, getitem.
  destruct (dict_lookup "service_period" d) as [p|] eqn:Hp; [|now eexists].
  destruct (truthy p); [|now eexists].
  destruct (printable_str p (texts_printable d R "service_period" p ltac:(discriminate) Hp))
    as [b Hb].
  assert (Ha : exists a,
             py_str match dict_lookup "service_description" d with
                    | Some v => v
                    | None => VStr "Software engineering services"
                    end = Ret a).
  { destruct (dict_lookup "service_description" d) as [v|] eqn:Hv; [|now eexists].
    apply printable_str.
    exact (texts_printable d R "service_description" v ltac:(discriminate) Hv). }
  destruct Ha as [a Ha]. rewrite Ha. cbn [and_then]. rewrite Hb. now eexists.
Qed.

Lemma remittance_text_cases d :
  invoice_record d ->
  match dict_lookup "account_holder" d, dict_lookup "dolartag" d with
  | None, _ => remittance_text d = Raise (KeyError "account_holder")
  | Some _, None => remittance_text d = Raise (KeyError "dolartag")
  | Some _, Some _ => exists s, remittance_text d = Ret s
  end.
Proof.
  intros R. unfold remittance_text, get, item, getitem.
  destruct (dict_lookup "account_holder" d) as [h|] eqn:Hh; [|reflexivity].
  destruct (printable_str h (texts_printable d R "account_holder" h ltac:(discriminate) Hh)) as [hs Hhs].
  cbn [and_then]. rewrite Hhs. cbn [and_then].
  destruct (dict_lookup "dolartag" d) as [t|] eqn:Ht; [|reflexivity].
  destruct (printable_str t (texts_printable d R "dolartag" t ltac:(discriminate) Ht)) as [ts Hts].
  cbn [and_then]. rewrite Hts. cbn [and_then].
  destruct (dict_lookup "additional_payment_info" d) as [x|] eqn:Hx; [|now eexists].
  destruct (truthy x); [|now eexists].
  destruct (printable_str x (texts_printable d R "additional_payment_info" x ltac:(discriminate) Hx)) as [xs Hxs].
  cbn [and_then]. rewrite Hxs. now eexists.
Qed.

Ltac early Hl :=
  refine (library_raises_incl _ _ _ _ _ Hl);
  let p := fresh "p" in
  let Hp := fresh "Hp" in
  intros p Hp; unfold early_paragraphs; rewrite !in_app_iff;
  cbn [In] in *; tauto.

(** The layout of a well-formed record that lacks a required field
    fails: on the first such field that is read, unless reportlab has
    refused a paragraph made before. *)
Lemma build_elements_missing d w :
  invoice_record d ->
  (exists k, In k required_fields /\ dict_lookup k d = None) ->
  exists e,
    fst (build_elements d w) = Raise e
    /\ ((exists k, In k required_fields /\ dict_lookup k d = None /\ e = KeyError k)
        \/ library_raises (early_paragraphs d) w e).
Proof.
  intros R [k0 [Hin Hnone]].
  destruct (has_number d R) as [v1 H1]. destruct (has_date d R) as [v2 H2].
  destruct (line_description_defined d R) as [desc Hdesc].
  pose proof (remittance_text_cases d R) as Hrem.
  assert (Hitem : forall k v, dict_lookup k d = Some v -> item d k = Ret v)
    by (intros k v Hk; unfold item, getitem; now rewrite Hk).
  assert (Hmiss : forall k, dict_lookup k d = None -> item d k = Raise (KeyError k))
    by (intros k Hk; unfold item, getitem; now rewrite Hk).
  assert (Hplain : forall k v, dict_lookup k d = Some v -> exists t, Ret v = Ret t)
    by (intros k v _; now exists v).
  assert (Hlab : forall k (label : string), k <> "amount" ->
                   forall v, dict_lookup k d = Some v ->
                             exists t, labelled label v = Ret t).
  { intros k label Hk v Hv. apply labelled_defined.
    exact (texts_printable d R k v Hk Hv). }
  unfold build_elements.
  repeat first
    [ match goal with
      | |- context [bind (paragraph ?t ?s) _ w] =>
          destruct (paragraph_cases t s w) as [Hp|[e [Hp Hl]]];
          [ rewrite (bind_run _ _ _ _ _ Hp); clear Hp
          | rewrite (bind_fail _ _ _ _ _ Hp); exists e;
            split; [reflexivity|right; early Hl] ]
      | |- context [bind (optional_line d ?k Ret) _ w] =>
          destruct (optional_line_cases d k Ret w (Hplain k))
            as [[? Hp]|[? [Hp Hl]]];
          [ rewrite (bind_run _ _ _ _ _ Hp); clear Hp
          | rewrite (bind_fail _ _ _ _ _ Hp); eexists;
            split; [reflexivity|right; early Hl] ]
      | |- context [bind (optional_line d ?k (labelled ?label)) _ w] =>
          destruct (optional_line_cases d k (labelled label) w
                      (Hlab k label ltac:(discriminate)))
            as [[? Hp]|[? [Hp Hl]]];
          [ rewrite (bind_run _ _ _ _ _ Hp); clear Hp
          | rewrite (bind_fail _ _ _ _ _ Hp); eexists;
            split; [reflexivity|right; early Hl] ]
      end
    | rewrite bind_lift, (Hitem _ _ H1)
    | rewrite bind_lift, (Hitem _ _ H2)
    | rewrite bind_lift, Hdesc ].
  destruct (dict_lookup "amount" d) as [a|] eqn:Ha.
  - destruct (amount_is_float d R a Ha) as [amount ->].
    rewrite (Hitem _ _ Ha).
    repeat (rewrite bind_lift; cbn [amount_text format_comma_2f and_then]).
    destruct (paragraph_cases (VStr "<b>Remittance Instructions</b>") heading_style w)
      as [Hp|[e [Hp Hl]]];
      [ rewrite (bind_run _ _ _ _ _ Hp); clear Hp
      | rewrite (bind_fail _ _ _ _ _ Hp); exists e;
        split; [reflexivity|right; early Hl] ].
    rewrite bind_lift.
    destruct (dict_lookup "account_holder" d) as [h|] eqn:Hh.
    + destruct (dict_lookup "dolartag" d) as [t|] eqn:Ht.
      * exfalso. cbn [required_fields In] in Hin.
        destruct Hin as [<-|[<-|[<-|[]]]]; congruence.
      * rewrite Hrem. exists (KeyError "dolartag"). split; [reflexivity|].
        left. exists "dolartag". cbn [required_fields In]. tauto.
    + rewrite Hrem. exists (KeyError "account_holder"). split; [reflexivity|].
      left. exists "account_holder". cbn [required_fields In]. tauto.
  - rewrite bind_lift, (Hmiss _ Ha). exists (KeyError "amount").
    split; [reflexivity|]. left. exists "amount". cbn [required_fields In]. tauto.
Qed.

(** C3, amended. For every invoice record in which the amount, the
    account holder or the payment tag is absent, rendering fails and the
    world is left as it was: no output file is produced.  The error names
    an absent required field (Python's [KeyError] of that key), unless
    reportlab has refused one of the paragraphs made before that field is
    read, a heading or a party line of the record, in which case it is
    reportlab's error.  The generator is the same in both entry modes. *)
Theorem missing_required_field d (name : string) w :
  invoice_record d ->
  (exists k, In k required_fields /\ dict_lookup k d = None) ->
  exists e,
    generate_pdf {| invoice_data := d |} name w = (Raise e, w)
    /\ ((exists k, In k required_fields /\ dict_lookup k d = None /\ e = KeyError k)
        \/ library_raises (early_paragraphs d) w e).
Proof.
  intros R Habsent.
  destruct (build_elements_missing d w R Habsent) as (e & He & Hcases).
  exists e. split; [|exact Hcases].
  rewrite generate_pdf_run. now rewrite He.
Qed.

End RequiredFields.




(** ** Amount formatting *)

Section AmountFormat.

Lemma round_half_even_nearest (n den : Z) :
  0 < den ->
  let c := round_half_even n den in
  2 * Z.abs (c * den - n) <= den
  /\ (2 * Z.abs (c * den - n) = den -> Z.even c = true).
Proof.
  intros Hden. unfold round_half_even.
  pose proof (Z.div_mod n den ltac:(lia)) as Hdm.
  pose proof (Z.mod_pos_bound n den Hden) as Hr.
  set (q := n / den) in *. set (r := n mod den) in *.
  destruct (2 * r ?= den) eqn:Hc.
  - apply Z.compare_eq in Hc. destruct (Z.even q) eqn:Hq.
    + split; [|trivial]. replace (q * den - n) with (- r) by lia. lia.
    + split.
      * replace ((q + 1) * den - n) with (den - r) by lia. lia.
      * intros _. replace (q + 1) with (Z.succ q) by lia.
        rewrite Z.even_succ, <- Z.negb_even, Hq. reflexivity.
  - rewrite Z.compare_lt_iff in Hc.
    replace (q * den - n) with (- r) by lia. split; lia.
  - rewrite Z.compare_gt_iff in Hc.
    replace ((q + 1) * den - n) with (den - r) by lia. split; lia.
Qed.

Lemma hundredths_nearest (m : positive) (e : Z) :
  nearest_hundredths m e (hundredths m e) /\ 0 <= hundredths m e.
Proof.
  unfold nearest_hundredths, hundredths. destruct (0 <=? e) eqn:He.
  - apply Z.leb_le in He. split; [reflexivity|].
    pose proof (Z.pow_nonneg 2 e ltac:(lia)). nia.
  - apply Z.leb_gt in He.
    assert (Hden : 0 < 2 ^ (- e)) by (apply Z.pow_pos_nonneg; lia).
    split; [apply round_half_even_nearest; exact Hden|].
    unfold round_half_even.
    pose proof (Z.div_pos (100 * Z.pos m) (2 ^ (- e)) ltac:(lia) Hden).
    destruct (2 * ((100 * Z.pos m) mod 2 ^ (- e)) ?= 2 ^ (- e));
      [destruct (Z.even _)|..]; lia.
Qed.

End AmountFormat.

Section Grouping.

Lemma uint_digits_all (d : Decimal.uint) :
  all_digits (NilEmpty.string_of_uint d) = true.
Proof. induction d; simpl; auto. Qed.

Lemma digits_all_digits (n : N) : all_digits (digits n) = true.
Proof.
  unfold digits, NilZero.string_of_uint.
  destruct (N.to_uint n); try reflexivity; apply uint_digits_all.
Qed.

Lemma digits_nonempty (n : N) : digits n <> "".
Proof.
  unfold digits, NilZero.string_of_uint.
  destruct (N.to_uint n); simpl; discriminate.
Qed.

Lemma numeral_digits (n : N) : numeral (digits n) = Some n.
Proof.
  unfold numeral, digits.
  assert (Hnil : N.to_uint n <> Decimal.Nil).
  { destruct n as [|p]; [discriminate|]. simpl.
    pose proof (DecimalPos.Unsigned.to_uint_nonnil p). exact H. }
  pose proof (NilZero.usu (N.to_uint n) Hnil) as H.
  unfold NilZero.uint_of_string in H.
  destruct (NilZero.string_of_uint (N.to_uint n)) eqn:E; [discriminate|].
  rewrite H. simpl. now rewrite DecimalN.Unsigned.of_to.
Qed.

Lemma is_digit_not_comma (c : ascii) : is_digit c = true -> Ascii.eqb c "," = false.
Proof.
  intros H. destruct (Ascii.eqb c ",") eqn:E; [|reflexivity].
  apply Ascii.eqb_eq in E. subst c. discriminate H.
Qed.

Lemma commas_unfold (c : ascii) (s : string) :
  commas (String c s) =
    String c (if (0 <? String.length s)%nat && (String.length s mod 3 =? 0)%nat
              then String "," (commas s) else commas s).
Proof. reflexivity. Qed.

Lemma remove_commas (s : string) :
  all_digits s = true -> remove_char "," (commas s) = s.
Proof.
  induction s as [|c s IH]; [reflexivity|].
  cbn [all_digits]. intros H. apply andb_true_iff in H as [Hc Hs].
  rewrite commas_unfold. cbn [remove_char]. rewrite (is_digit_not_comma c Hc).
  destruct ((0 <? String.length s)%nat && (String.length s mod 3 =? 0)%nat);
    cbn [remove_char Ascii.eqb Bool.eqb]; now rewrite IH.
Qed.

Lemma commas_block (c : ascii) (s : string) (k : nat) :
  String.length s = (3 * k)%nat ->
  commas (String c s) = String c (rest_grouped s).
Proof.
  intros Hlen. rewrite commas_unfold.
  destruct s as [|a s]; [reflexivity|].
  rewrite Hlen.
  replace ((3 * k) mod 3 =? 0)%nat with true
    by (symmetry; apply Nat.eqb_eq; rewrite Nat.mul_comm; apply Nat.Div0.mod_mul).
  destruct k as [|k]; [discriminate Hlen|]. reflexivity.
Qed.

Lemma commas_inner (c : ascii) (s : string) (k r : nat) :
  String.length s = (3 * k + r)%nat -> (r = 1 \/ r = 2)%nat ->
  commas (String c s) = String c (commas s).
Proof.
  intros Hlen Hr. rewrite commas_unfold, Hlen.
  replace ((3 * k + r) mod 3 =? 0)%nat with false; [now rewrite andb_false_r|].
  symmetry. apply Nat.eqb_neq.
  rewrite Nat.add_comm, Nat.mul_comm, Nat.Div0.mod_add.
  destruct Hr as [-> | ->]; cbn; lia.
Qed.

Lemma rest_grouped_thousands (k : nat) :
  forall s, String.length s = (3 * k)%nat -> all_digits s = true ->
            thousands (rest_grouped s).
Proof.
  induction k as [|k IH]; intros s Hlen Hd.
  - destruct s; [constructor|discriminate Hlen].
  - destruct s as [|a [|b [|c s]]]; try (simpl in Hlen; lia).
    cbn [all_digits] in Hd.
    apply andb_true_iff in Hd as [Ha Hd].
    apply andb_true_iff in Hd as [Hb Hd].
    apply andb_true_iff in Hd as [Hc Hd].
    assert (Hs : String.length s = (3 * k)%nat) by (simpl in Hlen; lia).
    cbn [rest_grouped].
    rewrite (commas_inner a (String b (String c s)) k 2) by (simpl; lia).
    rewrite (commas_inner b (String c s) k 1) by (simpl; lia).
    rewrite (commas_block c s k Hs).
    constructor; auto.
Qed.

Lemma commas_grouped (s : string) :
  s <> "" -> all_digits s = true -> grouped (commas s).
Proof.
  intros Hne Hd.
  assert (Hsplit : exists k r, String.length s = (3 * k + r)%nat
                               /\ (r = 1 \/ r = 2 \/ r = 3)%nat).
  { destruct s as [|c s]; [congruence|]. cbn [String.length].
    exists (String.length s / 3)%nat, (S (String.length s mod 3)).
    pose proof (Nat.div_mod_eq (String.length s) 3).
    pose proof (Nat.mod_upper_bound (String.length s) 3 ltac:(lia)). lia. }
  destruct Hsplit as (k & r & Hlen & Hr).
  destruct Hr as [-> | [-> | ->]].
  - destruct s as [|a s]; [simpl in Hlen; lia|].
    cbn [all_digits] in Hd. apply andb_true_iff in Hd as [Ha Hd].
    assert (Hs : String.length s = (3 * k)%nat) by (simpl in Hlen; lia).
    rewrite (commas_block a s k Hs).
    apply grouped_1; [assumption|]. now apply (rest_grouped_thousands k).
  - destruct s as [|a [|b s]]; try (simpl in Hlen; lia).
    cbn [all_digits] in Hd. apply andb_true_iff in Hd as [Ha Hd].
    apply andb_true_iff in Hd as [Hb Hd].
    assert (Hs : String.length s = (3 * k)%nat) by (simpl in Hlen; lia).
    rewrite (commas_inner a (String b s) k 1) by (simpl; lia).
    rewrite (commas_block b s k Hs).
    apply grouped_2; try assumption. now apply (rest_grouped_thousands k).
  - destruct s as [|a [|b [|c s]]]; try (simpl in Hlen; lia).
    cbn [all_digits] in Hd. apply andb_true_iff in Hd as [Ha Hd].
    apply andb_true_iff in Hd as [Hb Hd]. apply andb_true_iff in Hd as [Hc Hd].
    assert (Hs : String.length s = (3 * k)%nat) by (simpl in Hlen; lia).
    rewrite (commas_inner a (String b (String c s)) k 2) by (simpl; lia).
    rewrite (commas_inner b (String c s) k 1) by (simpl; lia).
    rewrite (commas_block c s k Hs).
    apply grouped_3; try assumption. now apply (rest_grouped_thousands k).
Qed.

(** Two decimals: the padded numeral of a number below one hundred. *)
Lemma two_decimals (f : Z) :
  0 <= f < 100 ->
  String.length (format_0d 2 f) = 2%nat /\ numeral (format_0d 2 f) = Some (Z.to_N f).
Proof.
  intros Hf.
  assert (Hall : forallb
                   (fun i : nat =>
                      let f := Z.of_nat i in
                      (String.length (format_0d 2 f) =? 2)%nat
                      && match numeral (format_0d 2 f) with
                         | Some v => N.eqb v (Z.to_N f)
                         | None => false
                         end)
                   (seq 0 100) = true) by (vm_compute; reflexivity).
  rewrite forallb_forall in Hall.
  specialize (Hall (Z.to_nat f)). rewrite Z2Nat.id in Hall by lia.
  assert (Hin : In (Z.to_nat f) (seq 0 100)) by (apply in_seq; lia).
  apply Hall in Hin. apply andb_true_iff in Hin as [Hlen Hnum].
  apply Nat.eqb_eq in Hlen. split; [exact Hlen|].
  destruct (numeral (format_0d 2 f)) as [v|]; [|discriminate].
  apply N.eqb_eq in Hnum. now subst.
Qed.

Lemma fixed2_money (c : Z) : 0 <= c -> money_text c ("$" ++ fixed2 false c).
Proof.
  intros Hc. unfold money_text, fixed2.
  exists (commas (digits (Z.to_N (c / 100)))), (format_0d 2 (c mod 100)).
  destruct (two_decimals (c mod 100) ltac:(apply Z.mod_pos_bound; lia)) as [Hlen Hnum].
  split; [reflexivity|].
  split; [apply commas_grouped; [apply digits_nonempty|apply digits_all_digits]|].
  split; [rewrite remove_commas by apply digits_all_digits; apply numeral_digits|].
  split; assumption.
Qed.

End Grouping.

Section AmountClaims.

Implicit Types (d : list (string * value)) (w : World).

Lemma float_amount_money (x : spec_float) :
  nonneg_finite x = true ->
  exists c, amount_hundredths x c
            /\ money_text c ("$" ++ float_format_comma_2f x).
Proof.
  destruct x as [[|]|s| |[|] m e]; try discriminate; intros _.
  - exists 0. split; [reflexivity|]. now apply fixed2_money.
  - destruct (hundredths_nearest m e) as [Hn Hpos].
    exists (hundredths m e). split; [exact Hn|]. now apply fixed2_money.
Qed.

Lemma build_elements_amount d w (x : spec_float) (elements : list flowable) :
  dict_lookup "amount" d = Some (VFloat x) ->
  fst (build_elements d w) = Ret elements ->
  exists description,
    In (services_table description ("$" ++ float_format_comma_2f x)) elements
    /\ In (total_table ("$" ++ float_format_comma_2f x)) elements.
Proof.
  intros Ha H.
  assert (Hitem : item d "amount" = Ret (VFloat x))
    by (unfold item, getitem; now rewrite Ha).
  unfold build_elements in H. rewrite Hitem in H.
  repeat (apply bind_ret_inv in H; destruct H as (? & ? & ? & H)).
  cbn [ret fst] in H. injection H as <-.
  repeat match goal with
         | E : lift ?o _ = (Ret ?a, _) |- _ =>
             assert (o = Ret a) by (unfold lift in E; congruence); clear E
         end.
  repeat match goal with
         | E : Ret (VFloat x) = Ret _ |- _ => injection E as <-
         end.
  repeat match goal with
         | E : amount_text (VFloat x) = Ret _ |- _ =>
             cbn [amount_text format_comma_2f and_then] in E; injection E as <-
         end.
  match goal with
  | E : line_description d = Ret ?v |- _ => exists v
  end.
  unfold services_table, total_table.
  simpl. rewrite !in_app_iff. simpl. tauto.
Qed.

(** C8. When the amount of a record is a finite float with the sign bit
    clear, the amount cell of the Services table and that of the Total table
    hold the same text: a dollar sign, the whole part in comma-separated
    groups of three digits, a point and exactly two decimals, denoting the
    amount rounded to the nearest hundredth (ties to even), whatever the
    magnitude or the binary fraction of the float.  In particular 5000,
    1234567.5 and 0 are written $5,000.00, $1,234,567.50 and $0.00. *)
Theorem amount_rendering d w (x : spec_float) (elements : list flowable) :
  dict_lookup "amount" d = Some (VFloat x) ->
  nonneg_finite x = true ->
  fst (build_elements d w) = Ret elements ->
  (exists (c : Z) (s : string) (description : value),
      amount_hundredths x c
      /\ money_text c s
      /\ In (services_table description s) elements
      /\ In (total_table s) elements)
  /\ (x <~ py_float "5000" ;; amount_text (VFloat x)) = Ret "$5,000.00"
  /\ (x <~ py_float "1234567.5" ;; amount_text (VFloat x)) = Ret "$1,234,567.50"
  /\ (x <~ py_float "0" ;; amount_text (VFloat x)) = Ret "$0.00".
Proof.
  intros Ha Hx H. split; [|repeat split; vm_compute; reflexivity].
  destruct (float_amount_money x Hx) as (c & Hc & Hm).
  destruct (build_elements_amount d w x elements Ha H) as (description & Hs & Ht).
  exists c, ("$" ++ float_format_comma_2f x), description. auto.
Qed.

End AmountClaims.

Section LayoutWitnesses.

Ltac lookup_cases H :=
  simpl in H;
  repeat match type of H with
         | (if String.eqb ?k ?s then _ else _) = _ =>
             let E := fresh "E" in
             destruct (String.eqb k s) eqn:E;
             [apply String.eqb_eq in E; subst;
              first [congruence | injection H as <-; eauto]|]
         end;
  try discriminate H.

Lemma record_without_amount_ok : invoice_record record_without_amount.
Proof.
  constructor.
  - now eexists.
  - now eexists.
  - intros v H. lookup_cases H.
  - intros k v Hk H. lookup_cases H.
Qed.

Lemma missing_required_field_witness :
  exists e,
    generate_pdf {| invoice_data := record_without_amount |} "out.pdf" empty_world
    = (Raise e, empty_world)
    /\ ((exists k, In k required_fields
                   /\ dict_lookup k record_without_amount = None /\ e = KeyError k)
        \/ library_raises (early_paragraphs record_without_amount) empty_world e).
Proof.
  apply (missing_required_field record_without_amount "out.pdf" empty_world
           record_without_amount_ok).
  exists "amount". split; [simpl; tauto|reflexivity].
Defined.

Lemma markup_record_without_amount_ok : invoice_record markup_record_without_amount.
Proof.
  constructor.
  - now eexists.
  - now eexists.
  - intros v H. lookup_cases H.
  - intros k v Hk H. lookup_cases H.
Qed.

(** Against C3 as stated: a record without amount whose client name
    reportlab refuses.  Rendering fails on the paragraph of the client
    name, before the amount is read, with an error that names no field. *)
Lemma missing_required_field_counterexample :
  invoice_record markup_record_without_amount
  /\ dict_lookup "amount" markup_record_without_amount = None
  /\ generate_pdf {| invoice_data := markup_record_without_amount |} "out.pdf"
       empty_world
     = (Raise ValueError, empty_world)
  /\ (forall k, ValueError <> KeyError k)
  /\ generate_pdf {| invoice_data := record_without_amount |} "out.pdf" empty_world
     = (Raise (KeyError "amount"), empty_world).
Proof.
  split; [exact markup_record_without_amount_ok|].
  repeat split; discriminate.
Qed.

Lemma amount_rendering_witness :
  exists (c : Z) (s : string) (description : value),
    amount_hundredths (float_of_Z 5000) c
    /\ money_text c s
    /\ In (services_table description s) sample_elements
    /\ In (total_table s) sample_elements.
Proof.
  apply (amount_rendering sample_record empty_world (float_of_Z 5000) sample_elements).
  - reflexivity.
  - reflexivity.
  - vm_compute. reflexivity.
Defined.

End LayoutWitnesses.

(** ** The store under partial documents, and the entry point *)

Section StoreDocuments.

Implicit Types (w : World) (doc : value) (name : string).

Lemma get_next_without_counter (self : InvoiceNumberManager)
  (d : list (string * value)) w :
  data self = VDict d -> dict_lookup "last_invoice_number" d = None ->
  get_next_invoice_number self w = (Raise (KeyError "last_invoice_number"), w)
  /\ get_current_invoice_number self w = (Raise (KeyError "last_invoice_number"), w).
Proof.
  intros Hd Hn.
  unfold get_next_invoice_number, get_current_invoice_number, bind, lift.
  rewrite Hd. simpl. now rewrite Hn.
Qed.

(** C5 fails on the code for the counter: a parseable document that lacks
    [last_invoice_number] is loaded as it is, with no default filled in,
    and both numbering operations then raise [KeyError]; the template
    operations do tolerate a document that lacks [templates]; a file that
    does not parse raises the JSON decoding error. *)
Theorem missing_counter_key_raises :
  let w := world_with document_without_counter [] in
  let w' := world_with document_without_templates [] in
  _load_data default_data_file w = (Ret document_without_counter, w)
  /\ (self <- __init__ default_data_file ;; get_next_invoice_number self) w
     = (Raise (KeyError "last_invoice_number"), w)
  /\ (self <- __init__ default_data_file ;; get_current_invoice_number self) w
     = (Raise (KeyError "last_invoice_number"), w)
  /\ (self <- __init__ default_data_file ;; load_template self "rexo") w'
     = (Ret VNone, w')
  /\ (self <- __init__ default_data_file ;; list_templates self) w' = (Ret [], w')
  /\ fst ((self <- __init__ default_data_file ;;
           save_template self "rexo" (VDict sample_template)) w')
     = Ret {| data_file := default_data_file;
              data := VDict [ ("last_invoice_number", VInt 7);
                              ("templates", VDict [("rexo", VDict sample_template)]) ] |}
  /\ fst (__init__ default_data_file
            {| files := {[ default_data_file := Garbage ]}; stdout := [];
               stdin := []; clock := sample_clock; ticks := 0;
              reportlab := sample_reportlab |})
     = Raise JSONDecodeError.
Proof. repeat split. Qed.





End StoreDocuments.

Section EntryPoint.

Implicit Types (w : World) (doc : value) (name : string)
  (cl : Cli.CommandLine) (args : Cli.Namespace).




Lemma list_templates_pure (self : InvoiceNumberManager) :
  exists o, forall w, list_templates self w = (o, w).
Proof.
  unfold list_templates. apply pure_bind; [apply pure_lift|].
  intros [|]; [|apply pure_ret].
  apply pure_bind; [apply pure_lift|]. intros a. apply pure_lift.
Qed.






End EntryPoint.

Section ZeroAmount.

Implicit Types (w : World) (doc : value) (name : string)
  (cl : Cli.CommandLine) (args : Cli.Namespace).




(** The value [main] returns never reaches the process: the script calls
    [main()] and drops it, so a run that returns 1 still exits with 0. *)
Lemma exit_status_drops_return cl (r : option Z) w w' :
  main cl w = (Ret r, w') -> exit_status cl w = (0, w').
Proof. intros H. unfold exit_status. now rewrite H. Qed.




End ZeroAmount.

(** * Further properties of the code *)

(** ** Running computations step by step *)



(** ** The template registry *)

Section Registry.

Implicit Types (self : InvoiceNumberManager) (d ts : list (string * value))
  (name : string) (w : World).

(** What [save_template] comes to on a document whose [templates] entry is
    absent or a dict. *)
Lemma save_template_run self d name (tpl : value) w :
  data self = VDict d ->
  templates_of d <> None ->
  let ts := match templates_of d with Some ts => ts | None => [] end in
  let d' := dict_store "templates" (VDict (dict_store name tpl ts)) d in
  save_template self name tpl w
  = (Ret {| data_file := data_file self; data := VDict d' |},
     {| files := <[data_file self := JsonText (VDict d')]> (files w);
        stdout := stdout w; stdin := stdin w; clock := clock w; ticks := ticks w;
     reportlab := reportlab w |}).
Proof.
  intros Hd Hts. unfold templates_of in *. unfold save_template, bind, lift.
  rewrite Hd. cbn [contains].
  destruct (dict_lookup "templates" d) as [[| | | | |?|ts]|] eqn:Ht;
    try contradiction; cbn [setitem getitem ret].
  - rewrite Ht. cbn [setitem]. reflexivity.
  - rewrite dict_lookup_store_eq. cbn [setitem]. rewrite dict_store_store. reflexivity.
Qed.

Lemma load_template_run self d name w :
  data self = VDict d ->
  templates_of d <> None ->
  load_template self name w
  = (Ret match templates_of d with
         | Some ts => match dict_lookup name ts with Some v => v | None => VNone end
         | None => VNone
         end, w).
Proof.
  intros Hd Hts. unfold templates_of in *. unfold load_template, bind, lift.
  rewrite Hd. cbn [contains].
  destruct (dict_lookup "templates" d) as [[| | | | |?|ts]|] eqn:Ht;
    try contradiction; cbn [getitem ret]; [|reflexivity].
  rewrite Ht. reflexivity.
Qed.

Lemma list_templates_run self d w :
  data self = VDict d ->
  templates_of d <> None ->
  list_templates self w
  = (Ret (dict_keys match templates_of d with Some ts => ts | None => [] end), w).
Proof.
  intros Hd Hts. unfold templates_of in *. unfold list_templates, bind, lift.
  rewrite Hd. cbn [contains].
  destruct (dict_lookup "templates" d) as [[| | | | |?|ts]|] eqn:Ht;
    try contradiction; cbn [getitem ret]; [|reflexivity].
  rewrite Ht. reflexivity.
Qed.

Lemma templates_of_store d ts :
  templates_of (dict_store "templates" (VDict ts) d) = Some ts.
Proof. unfold templates_of. now rewrite dict_lookup_store_eq. Qed.

(** X1. Saving a template and loading it back gives the saved record, both
    from the manager that saved it and from a new manager made from the
    backing file. *)
Theorem save_then_load_template self d name (tpl : value) w :
  data self = VDict d ->
  templates_of d <> None ->
  exists self' w',
    save_template self name tpl w = (Ret self', w')
    /\ load_template self' name w' = (Ret tpl, w')
    /\ (fresh <- __init__ (data_file self) ;; load_template fresh name) w'
       = (Ret tpl, w').
Proof.
  intros Hd Hts. eexists _, _.
  split; [exact (save_template_run self d name tpl w Hd Hts)|].
  cbv zeta.
  set (d' := dict_store "templates" _ d).
  set (w' := Build_World _ _ _ _ _ _).
  assert (Hload : forall m, data m = VDict d' -> load_template m name w' = (Ret tpl, w')).
  { intros m Hm.
    rewrite (load_template_run m d' name w' Hm)
      by (unfold d'; now rewrite templates_of_store).
    unfold d'. now rewrite templates_of_store, dict_lookup_store_eq. }
  split; [now apply Hload|].
  assert (Hinit : __init__ (data_file self) w'
                  = (Ret {| data_file := data_file self; data := VDict d' |}, w')).
  { unfold __init__, _load_data, bind, read_file, lift, ret. unfold w' at 1.
    cbn [files]. now rewrite lookup_insert_eq. }
  rewrite (bind_run _ _ _ _ _ Hinit). now apply Hload.
Qed.

Lemma dict_lookup_in_keys (k : string) d :
  dict_lookup k d <> None <-> In k (dict_keys d).
Proof.
  induction d as [|[k' v'] d IH]; simpl; [tauto|].
  destruct (String.eqb k k') eqn:E.
  - apply String.eqb_eq in E. subst. split; [tauto|discriminate].
  - apply String.eqb_neq in E. rewrite IH. split; [tauto|].
    intros [H|H]; [congruence|exact H].
Qed.

(** X2. Saving a template under one name leaves every other template, the
    invoice counter and every other key of the document as they were. *)
Theorem save_template_keeps_rest self d name (tpl : value) w (other : string) :
  data self = VDict d ->
  templates_of d <> None ->
  other <> name ->
  exists self' w',
    save_template self name tpl w = (Ret self', w')
    /\ fst (load_template self' other w') = fst (load_template self other w)
    /\ fst (get_current_invoice_number self' w')
       = fst (get_current_invoice_number self w)
    /\ (forall k, k <> "templates" ->
          getitem (data self') k = getitem (data self) k).
Proof.
  intros Hd Hts Hne. eexists _, _.
  split; [exact (save_template_run self d name tpl w Hd Hts)|].
  cbv zeta.
  set (ts := match templates_of d with Some ts => ts | None => [] end).
  set (d' := dict_store "templates" _ d).
  set (self' := Build_InvoiceNumberManager _ _).
  set (w' := Build_World _ _ _ _ _ _).
  assert (Hkeep : forall k, k <> "templates" -> dict_lookup k d' = dict_lookup k d).
  { intros k Hk. unfold d'. apply dict_lookup_store_ne. congruence. }
  split; [|split].
  - rewrite (load_template_run self' d' other w' eq_refl)
      by (unfold d'; now rewrite templates_of_store).
    rewrite (load_template_run self d other w Hd Hts).
    unfold d'. rewrite templates_of_store. cbn [fst]. f_equal.
    rewrite dict_lookup_store_ne by congruence.
    unfold ts. destruct (templates_of d); [reflexivity|contradiction].
  - unfold get_current_invoice_number, bind, lift. cbn [data self' getitem].
    rewrite Hd. cbn [getitem]. rewrite Hkeep by discriminate.
    now destruct (dict_lookup "last_invoice_number" d).
  - intros k Hk. cbn [data self' getitem]. rewrite Hd. cbn [getitem].
    now rewrite Hkeep.
Qed.

(** X3. After saving a template the listing is the old listing when the
    name was already there (an overwrite keeps its place), and the old
    listing with the name added at the end when it is new. *)
Theorem list_templates_after_save self d name (tpl : value) w (names : list string) :
  data self = VDict d ->
  templates_of d <> None ->
  fst (list_templates self w) = Ret names ->
  exists self' w',
    save_template self name tpl w = (Ret self', w')
    /\ (In name names -> fst (list_templates self' w') = Ret names)
    /\ (~ In name names ->
        fst (list_templates self' w') = Ret (names ++ [name])%list).
Proof.
  intros Hd Hts Hnames. eexists _, _.
  split; [exact (save_template_run self d name tpl w Hd Hts)|].
  cbv zeta.
  rewrite (list_templates_run self d w Hd Hts) in Hnames.
  cbn [fst] in Hnames. injection Hnames as <-.
  set (ts := match templates_of d with Some ts => ts | None => [] end).
  set (d' := dict_store "templates" _ d).
  set (self' := Build_InvoiceNumberManager _ _).
  set (w' := Build_World _ _ _ _ _ _).
  rewrite (list_templates_run self' d' w' eq_refl)
    by (unfold d'; now rewrite templates_of_store).
  unfold d'. rewrite templates_of_store, dict_keys_store. cbn [fst].
  pose proof (dict_lookup_in_keys name ts) as Hin.
  destruct (dict_lookup name ts) as [v|].
  - split; [reflexivity|]. intros Hn. exfalso. apply Hn, Hin. discriminate.
  - split; [|reflexivity]. intros Hi. apply Hin in Hi. congruence.
Qed.

End Registry.

(** ** The store file and the manager *)

Section Persistence.

Implicit Types (self : InvoiceNumberManager) (d : list (string * value)) (w : World).

(** X4. Whenever [get_next_invoice_number] or [save_template] returns, the
    backing file holds exactly the document the manager then has in memory,
    so a new manager made from the file starts from the same document. *)
Theorem store_mirrors_memory self w :
  (forall (number : string) self' w',
      get_next_invoice_number self w = (Ret (number, self'), w') ->
      __init__ (data_file self) w' = (Ret self', w'))
  /\ (forall (name : string) (tpl : value) self' w',
        save_template self name tpl w = (Ret self', w') ->
        __init__ (data_file self) w' = (Ret self', w')).
Proof.
  assert (Hinit : forall (v : value),
             __init__ (data_file self)
               {| files := <[data_file self := JsonText v]> (files w);
                  stdout := stdout w; stdin := stdin w; clock := clock w;
                  ticks := ticks w;
     reportlab := reportlab w |}
             = (Ret {| data_file := data_file self; data := v |},
                {| files := <[data_file self := JsonText v]> (files w);
                   stdout := stdout w; stdin := stdin w; clock := clock w;
                   ticks := ticks w;
     reportlab := reportlab w |})).
  { intros v. unfold __init__, _load_data, bind, read_file, lift, ret.
    cbn [files]. now rewrite lookup_insert_eq. }
  split.
  - intros number self' w'.
    unfold get_next_invoice_number, bind, lift, _save_data, write_file, ret.
    cbn [data data_file].
    destruct (getitem (data self) "last_invoice_number") as [old|]; [|discriminate].
    destruct (add_one old) as [new|]; [|discriminate].
    destruct (setitem (data self) "last_invoice_number" new) as [d'|]; [|discriminate].
    destruct (getitem d' "last_invoice_number") as [current|]; [|discriminate].
    destruct (format_04d current); [|discriminate].
    intros [= _ <- <-]. apply Hinit.
  - intros name tpl self' w'.
    unfold save_template, bind, lift, _save_data, write_file, ret.
    cbn [data data_file].
    destruct (contains "templates" (data self)) as [[|]|]; try discriminate.
    + destruct (getitem (data self) "templates") as [ts|]; [|discriminate].
      destruct (setitem ts name tpl) as [ts'|]; [|discriminate].
      destruct (setitem (data self) "templates" ts') as [d2|]; [|discriminate].
      intros [= <- <-]. apply Hinit.
    + destruct (setitem (data self) "templates" (VDict [])) as [d1|]; [|discriminate].
      destruct (getitem d1 "templates") as [ts|]; [|discriminate].
      destruct (setitem ts name tpl) as [ts'|]; [|discriminate].
      destruct (setitem d1 "templates" ts') as [d2|]; [|discriminate].
      intros [= <- <-]. apply Hinit.
Qed.

(** X6. A counter that is not an integer: when it is a float the
    incremented value is written to the file and the call then fails on the
    [04d] format, so the stored counter has moved although no number was
    returned; when it is a text, [None] or a container the increment itself
    fails and nothing is written. *)
Theorem allocation_on_bad_counter self d (v : value) w :
  data self = VDict d ->
  dict_lookup "last_invoice_number" d = Some v ->
  match v with
  | VFloat x =>
      get_next_invoice_number self w
      = (Raise ValueError,
         {| files :=
              <[data_file self :=
                  JsonText (VDict (dict_store "last_invoice_number"
                                     (VFloat (float_add x (float_of_Z 1))) d))]>
                (files w);
            stdout := stdout w; stdin := stdin w; clock := clock w;
            ticks := ticks w;
     reportlab := reportlab w |})
  | VStr _ | VNone | VList _ | VDict _ =>
      get_next_invoice_number self w = (Raise TypeError, w)
  | VInt _ | VBool _ => exists r w', get_next_invoice_number self w = (Ret r, w')
  end.
Proof.
  intros Hd Hv.
  unfold get_next_invoice_number, bind, lift, _save_data, write_file, ret.
  rewrite Hd. cbn [getitem]. rewrite Hv.
  destruct v; cbn [add_one setitem getitem data data_file];
    rewrite ?dict_lookup_store_eq; cbn [format_04d]; try reflexivity;
    now eexists _, _.
Qed.

End Persistence.

(** ** Output file names *)

Section FileNames.

Lemma substring_all (t : string) : substring 0 (String.length t) t = t.
Proof. induction t as [|c t IH]; [reflexivity|]. cbn. now rewrite IH. Qed.

Lemma substring_after (s t : string) :
  substring (String.length s) (String.length t) (s ++ t) = t.
Proof. induction s as [|c s IH]; [apply substring_all|]. cbn. exact IH. Qed.

Lemma endswith_append (s t : string) : endswith (s ++ t) t = true.
Proof.
  unfold endswith. rewrite string_length_append.
  replace (String.length s + String.length t - String.length t)%nat
    with (String.length s) by lia.
  rewrite substring_after, String.eqb_refl, andb_true_r.
  apply Nat.leb_le. lia.
Qed.

Lemma pdf_suffix_endswith (name : string) : endswith (pdf_suffix name) ".pdf" = true.
Proof.
  unfold pdf_suffix. destruct (endswith name ".pdf") eqn:E; [exact E|].
  apply endswith_append.
Qed.

Lemma pdf_suffix_not_store (name : string) : pdf_suffix name <> default_data_file.
Proof.
  intros H. pose proof (pdf_suffix_endswith name) as E. rewrite H in E.
  discriminate E.
Qed.

(** X5. The output file name always ends in ".pdf": a name that already
    does is kept, any other gets ".pdf" appended (the test is
    case-sensitive), applying the rule twice changes nothing more, and the
    result is never the name of the store file. *)
Theorem pdf_suffix_forced (name : string) :
  endswith (pdf_suffix name) ".pdf" = true
  /\ (if endswith name ".pdf" then pdf_suffix name = name
      else pdf_suffix name = name ++ ".pdf")
  /\ pdf_suffix (pdf_suffix name) = pdf_suffix name
  /\ pdf_suffix name <> default_data_file
  /\ pdf_suffix "invoice.PDF" = "invoice.PDF.pdf".
Proof.
  split; [apply pdf_suffix_endswith|].
  split; [unfold pdf_suffix; now destruct (endswith name ".pdf")|].
  split; [|split; [apply pdf_suffix_not_store|reflexivity]].
  unfold pdf_suffix at 1. now rewrite pdf_suffix_endswith.
Qed.

End FileNames.

(** ** The amount prompt *)

Section AmountPrompt.




End AmountPrompt.

(** ** Worlds reached by a dialogue *)

Section States.

Implicit Types (F : gmap string file) (E : list out_event) (r : list string)
  (k : nat) (w : World).

Lemma state_self w : state (files w) [] (stdin w) 0 w = w.
Proof. destruct w. unfold state. cbn. now rewrite app_nil_r, Nat.add_0_r. Qed.

Lemma print_state (line : string) F E r k w :
  print line (state F E r k w) = (Ret tt, state F (E ++ [Print line]) r k w).
Proof. unfold print, state. cbn. now rewrite <- app_assoc. Qed.

Lemma print_help_state F E r k w :
  print_help (state F E r k w) = (Ret tt, state F (E ++ [PrintHelp]) r k w).
Proof. unfold print_help, state. cbn. now rewrite <- app_assoc. Qed.

Lemma input_state (prompt line : string) F E r k w :
  input prompt (state F E (line :: r) k w)
  = (Ret line, state F (E ++ [Prompt prompt]) r k w).
Proof. unfold input, state. cbn. now rewrite <- app_assoc. Qed.

Lemma input_state_eof (prompt : string) F E k w :
  input prompt (state F E [] k w)
  = (Raise EOFError, state F (E ++ [Prompt prompt]) [] k w).
Proof. unfold input, state. cbn. now rewrite <- app_assoc. Qed.

Lemma input_stripped_state (prompt line : string) F E r k w :
  input_stripped prompt (state F E (line :: r) k w)
  = (Ret (strip line), state F (E ++ [Prompt prompt]) r k w).
Proof. unfold input_stripped. now rewrite (bind_run _ _ _ _ _ (input_state _ _ _ _ _ _ _)). Qed.


Lemma write_file_state (name : string) (f : file) F E r k w :
  write_file name f (state F E r k w) = (Ret tt, state (<[name := f]> F) E r k w).
Proof. reflexivity. Qed.

Lemma read_file_state (name : string) F E r k w :
  read_file name (state F E r k w) = (Ret (F !! name), state F E r k w).
Proof. reflexivity. Qed.






End States.

(** ** Interactive mode *)

Section Interactive.

Implicit Types (F : gmap string file) (E : list out_event) (r : list string)
  (k : nat) (w : World) (d : list (string * value)).




End Interactive.

(** ** What a broken-off dialogue leaves behind *)

Section BrokenOff.

Implicit Types (w : World).

Lemma quiet_ret {A} (a : A) : quiet (ret a).
Proof. now intros w. Qed.

Lemma quiet_print (line : string) : quiet (print line).
Proof. now intros w. Qed.

Lemma quiet_input (prompt : string) : quiet (input prompt).
Proof. intros w. unfold input. now destruct (stdin w). Qed.

Lemma quiet_now : quiet now.
Proof. now intros w. Qed.

Lemma quiet_bind {A B} (m : M A) (k : A -> M B) :
  quiet m -> (forall a, quiet (k a)) -> quiet (bind m k).
Proof.
  intros Hm Hk w. unfold bind. specialize (Hm w).
  destruct (m w) as [[a|e] w1]; cbn [snd] in *; [|exact Hm].
  now rewrite (Hk a w1).
Qed.

Lemma quiet_input_stripped (prompt : string) : quiet (input_stripped prompt).
Proof.
  unfold input_stripped. apply quiet_bind; [apply quiet_input|].
  intros a. apply quiet_ret.
Qed.

Lemma quiet_input_amount : quiet input_amount.
Proof.
  intros w. unfold input_amount.
  now destruct (ask_amount (stdin w) (stdout w)) as [[res rest] out].
Qed.

Lemma eof_bind_quiet {A B} (m : M A) (k : A -> M B) :
  quiet m -> (forall a, eof_keeps_files (k a)) -> eof_keeps_files (bind m k).
Proof.
  intros Hm Hk w. unfold bind. specialize (Hm w).
  destruct (m w) as [[a|e] w1]; cbn [fst snd] in *; [|now intros _].
  intros H. now rewrite (Hk a w1 H).
Qed.

Lemma no_eof_keeps_files {A} (m : M A) : no_eof m -> eof_keeps_files m.
Proof. intros H w He. now destruct (H w). Qed.

Lemma no_eof_bind {A B} (m : M A) (k : A -> M B) :
  no_eof m -> (forall a, no_eof (k a)) -> no_eof (bind m k).
Proof.
  intros Hm Hk w. unfold bind. specialize (Hm w).
  destruct (m w) as [[a|e] w1]; cbn [fst] in *; [apply Hk|].
  intros [= ->]. now apply Hm.
Qed.

Lemma no_eof_lift {A} (o : outcome A) : o <> Raise EOFError -> no_eof (lift o).
Proof. intros H w. exact H. Qed.

Lemma no_eof_ret {A} (a : A) : no_eof (ret a).
Proof. intros w. discriminate. Qed.

Lemma no_eof_print (line : string) : no_eof (print line).
Proof. intros w. discriminate. Qed.

Lemma no_eof_init (name : string) : no_eof (__init__ name).
Proof.
  intros w. unfold __init__, _load_data, bind, read_file, lift, ret.
  destruct (files w !! name) as [[v| |]|]; discriminate.
Qed.

Lemma no_eof_get_next (self : InvoiceNumberManager) :
  no_eof (get_next_invoice_number self).
Proof.
  intros w.
  unfold get_next_invoice_number, bind, lift, _save_data, write_file, ret.
  destruct (data self) as [| | | | |?|d]; cbn [getitem]; try discriminate.
  destruct (dict_lookup "last_invoice_number" d) as [old|]; [|discriminate].
  destruct old; cbn [add_one setitem getitem]; try discriminate;
    rewrite dict_lookup_store_eq; cbn [format_04d]; discriminate.
Qed.

Lemma and_then_not_eof {A B} (o : outcome A) (k : A -> outcome B) :
  o <> Raise EOFError -> (forall a, k a <> Raise EOFError) ->
  and_then o k <> Raise EOFError.
Proof.
  intros Ho Hk. destruct o as [a|e]; cbn [and_then]; [apply Hk|].
  intros [= ->]. now apply Ho.
Qed.

Lemma item_not_eof (d : list (string * value)) (key : string) :
  item d key <> Raise EOFError.
Proof. unfold item, getitem. now destruct (dict_lookup key d). Qed.

Lemma py_str_not_eof (v : value) : py_str v <> Raise EOFError.
Proof. now destruct v. Qed.

Lemma labelled_not_eof (label : string) (v : value) :
  labelled label v <> Raise EOFError.
Proof.
  unfold labelled. apply and_then_not_eof; [apply py_str_not_eof|discriminate].
Qed.

Lemma amount_text_not_eof (v : value) : amount_text v <> Raise EOFError.
Proof.
  unfold amount_text. apply and_then_not_eof; [|discriminate].
  unfold format_comma_2f.
  destruct v as [| b | n | x | s | l | d]; try discriminate.
  - now destruct (float_of_Z (if b then 1 else 0)).
  - now destruct (float_of_Z n).
Qed.

Lemma line_description_not_eof (d : list (string * value)) :
  line_description d <> Raise EOFError.
Proof.
  unfold line_description.
  destruct (truthy (get d "service_period")); [|discriminate].
  apply and_then_not_eof; [apply py_str_not_eof|intros a].
  apply and_then_not_eof; [apply item_not_eof|intros p].
  apply and_then_not_eof; [apply py_str_not_eof|discriminate].
Qed.

Lemma remittance_text_not_eof (d : list (string * value)) :
  remittance_text d <> Raise EOFError.
Proof.
  unfold remittance_text.
  apply and_then_not_eof; [apply item_not_eof|intros hv].
  apply and_then_not_eof; [apply py_str_not_eof|intros h].
  apply and_then_not_eof; [apply item_not_eof|intros tv].
  apply and_then_not_eof; [apply py_str_not_eof|intros t].
  cbv zeta. destruct (truthy (get d "additional_payment_info")); [|discriminate].
  apply and_then_not_eof; [apply item_not_eof|intros xv].
  apply and_then_not_eof; [apply py_str_not_eof|discriminate].
Qed.

Lemma exn_of_library_not_eof (le : library_error) : exn_of_library le <> EOFError.
Proof. now destruct le. Qed.

Lemma no_eof_paragraph (text : value) (style : ParagraphStyle) :
  no_eof (paragraph text style).
Proof.
  intros w. unfold paragraph.
  destruct (paragraph_error (reportlab w) text style) as [le|]; [|discriminate].
  cbn [fst]. intros [= H]. now apply (exn_of_library_not_eof le).
Qed.

Lemma no_eof_optional_line (d : list (string * value)) (key : string)
  (text : value -> outcome value) :
  (forall v, text v <> Raise EOFError) -> no_eof (optional_line d key text).
Proof.
  intros Ht. unfold optional_line.
  destruct (truthy (get d key)); [|apply no_eof_ret].
  apply no_eof_bind; [apply no_eof_lift, item_not_eof|intros v].
  apply no_eof_bind; [apply no_eof_lift, Ht|intros t].
  apply no_eof_bind; [apply no_eof_paragraph|intros line]. apply no_eof_ret.
Qed.

Lemma no_eof_build_elements (d : list (string * value)) : no_eof (build_elements d).
Proof.
  unfold build_elements.
  repeat first
    [ apply no_eof_ret
    | apply no_eof_bind;
      [ first [ apply no_eof_paragraph
              | apply no_eof_optional_line;
                first [ discriminate | apply labelled_not_eof ]
              | apply no_eof_lift;
                first [ apply item_not_eof | apply line_description_not_eof
                      | apply amount_text_not_eof | apply remittance_text_not_eof ] ]
      | intros ? ] ].
Qed.

Lemma no_eof_generate (g : InvoiceGenerator) (name : string) :
  no_eof (generate_pdf g name).
Proof.
  unfold generate_pdf.
  apply no_eof_bind; [apply no_eof_build_elements|intros elements].
  apply no_eof_bind; [|intros _; apply no_eof_ret].
  intros w. rewrite doc_build_run.
  destruct (build_error (reportlab w) letter_geometry elements) as [le|];
    [|discriminate].
  cbn [fst]. intros [= H]. now apply (exn_of_library_not_eof le).
Qed.

(** X9. When interactive mode ends on the end of the input, no file has
    been changed: the store is read and the invoice number allocated only
    after the last question has been answered, so a dialogue that breaks
    off uses up no number. *)
Theorem interactive_eof_keeps_store w :
  fst (interactive_mode w) = Raise EOFError ->
  files (snd (interactive_mode w)) = files w.
Proof.
  revert w. change (eof_keeps_files interactive_mode). unfold interactive_mode.
  repeat first
    [ apply eof_bind_quiet;
      [ first [ apply quiet_print | apply quiet_input_stripped
              | apply quiet_input_amount | apply quiet_now
              | match goal with
                | |- quiet (if ?b then _ else _) =>
                    destruct b;
                    [apply quiet_bind; [apply quiet_now|intros ?; apply quiet_ret]
                    |apply quiet_ret]
                end ]
      | intros ? ] ].
  apply no_eof_keeps_files.
  apply no_eof_bind; [apply no_eof_init|intros self].
  apply no_eof_bind; [apply no_eof_get_next|intros result].
  apply no_eof_bind; [apply no_eof_generate|intros _].
  apply no_eof_print.
Qed.

Lemma interactive_eof_keeps_store_witness :
  let w := world_with (rexo_document 7) [ "Rexo, Inc."; ""; ""; "abc"; "-" ] in
  fst (interactive_mode w) = Raise EOFError
  /\ files (snd (interactive_mode w)) = files w.
Proof.
  split; [reflexivity|].
  apply (interactive_eof_keeps_store
           (world_with (rexo_document 7) [ "Rexo, Inc."; ""; ""; "abc"; "-" ])).
  reflexivity.
Defined.

End BrokenOff.

(** ** The entry point: which mode runs *)

Section Dispatch.

Implicit Types (F : gmap string file) (E : list out_event) (r : list string)
  (k : nat) (w : World) (args : Cli.Namespace) (t d : list (string * value))
  (cl : Cli.CommandLine) (doc : value).










End Dispatch.

(** ** Argument mode *)

Section ArgumentMode.

Implicit Types (F : gmap string file) (E : list out_event) (r : list string)
  (k : nat) (w : World) (args : Cli.Namespace) (t d : list (string * value))
  (cl : Cli.CommandLine) (self : InvoiceNumberManager).








End ArgumentMode.

Section ArgumentModeRuns.

Implicit Types (w : World) (args : Cli.Namespace) (t d : list (string * value))
  (cl : Cli.CommandLine).


Lemma sufficient_amount args t :
  sufficient args t = true -> exists x, Cli.amount args = Some x.
Proof.
  unfold sufficient. destruct (Cli.amount args) as [x|]; [now eexists|discriminate].
Qed.




End ArgumentModeRuns.

(** ** Onboarding *)

Section Onboarding.

Implicit Types (F : gmap string file) (E : list out_event) (r : list string)
  (k : nat) (w : World).

Lemma ask_start_number_skips (refused : list string) (line : string)
  (rest : list string) (start : Z) :
  Forall start_refused refused ->
  start_answer line = Some start ->
  forall out, exists events,
    Onboard.ask_start_number (refused ++ line :: rest) out
    = (Ret start, rest, (out ++ events)%list).
Proof.
  intros Hrefused Hline.
  induction Hrefused as [|l refused Hl _ IH]; intros out.
  - cbn [app Onboard.ask_start_number]. unfold start_answer in Hline.
    destruct (Onboard.py_int (strip line)) as [n|e]; [|discriminate].
    destruct (n <? 0); [discriminate|]. injection Hline as ->. now eexists.
  - cbn [app Onboard.ask_start_number].
    destruct Hl as [Hint|(n & Hint & Hneg)]; rewrite Hint.
    + destruct (IH ((out ++ [Prompt Onboard.number_prompt])
                      ++ [Print "Invalid number. Please enter a whole number."])%list)
        as [events Hev].
      rewrite Hev, <- !app_assoc. now eexists.
    + apply Z.ltb_lt in Hneg. rewrite Hneg.
      destruct (IH ((out ++ [Prompt Onboard.number_prompt])
                      ++ [Print "Please enter a non-negative number."])%list)
        as [events Hev].
      rewrite Hev, <- !app_assoc. now eexists.
Qed.

Lemma input_start_number_state (refused : list string) (line : string) (start : Z) :
  Forall start_refused refused ->
  start_answer line = Some start ->
  forall F E r k w, exists events,
    Onboard.input_start_number (state F E (refused ++ line :: r) k w)
    = (Ret start, state F (E ++ events) r k w).
Proof.
  intros Hrefused Hline F E r k w. unfold Onboard.input_start_number.
  cbn [stdin stdout state].
  destruct (ask_start_number_skips refused line r start Hrefused Hline
              (stdout w ++ E)%list) as [events Hev].
  rewrite Hev. exists events. unfold state. now rewrite <- app_assoc.
Qed.

Lemma ask_again_skips (message prompt : string) (blanks : list string)
  (line : string) (rest : list string) :
  Forall blank blanks ->
  strip line <> "" ->
  forall out, exists events,
    Onboard.ask_again message prompt (blanks ++ line :: rest) out
    = (Ret (strip line), rest, (out ++ events)%list).
Proof.
  intros Hblanks Hline.
  induction Hblanks as [|l blanks Hl _ IH]; intros out.
  - cbn [app Onboard.ask_again].
    apply String.eqb_neq in Hline. rewrite Hline. now eexists.
  - cbn [app Onboard.ask_again]. unfold blank in Hl. rewrite Hl. cbn [String.eqb].
    destruct (IH (out ++ [Print message; Prompt prompt])%list) as [events Hev].
    rewrite Hev, <- !app_assoc. now eexists.
Qed.

Lemma input_required_state (first message prompt : string) (blanks : list string)
  (line : string) :
  Forall blank blanks ->
  strip line <> "" ->
  forall F E r k w, exists events,
    Onboard.input_required first message prompt (state F E (blanks ++ line :: r) k w)
    = (Ret (strip line), state F (E ++ events) r k w).
Proof.
  intros Hblanks Hline F E r k w. unfold Onboard.input_required.
  destruct Hblanks as [|l blanks Hl Hblanks].
  - cbn [app]. rewrite (bind_run _ _ _ _ _ (input_stripped_state _ _ _ _ _ _ _)).
    apply String.eqb_neq in Hline. rewrite Hline. now eexists.
  - cbn [app]. rewrite (bind_run _ _ _ _ _ (input_stripped_state _ _ _ _ _ _ _)).
    unfold blank in Hl. rewrite Hl. cbn [String.eqb stdin stdout state].
    destruct (ask_again_skips message prompt blanks line r Hblanks Hline
                (stdout w ++ E ++ [Prompt first])%list) as [events Hev].
    rewrite Hev. eexists. unfold state. now rewrite <- !app_assoc.
Qed.

Ltac run_prints :=
  repeat rewrite (bind_run _ _ _ _ _ (print_state _ _ _ _ _ _)).

Lemma summary_state (start : Z) (name cuil tag : string) F E r k w :
  exists events,
    Onboard.summary start name cuil tag (state F E r k w)
    = (Ret tt, state F (E ++ events) r k w).
Proof.
  unfold Onboard.summary. run_prints. rewrite print_state.
  rewrite <- !app_assoc. now eexists.
Qed.

(** [setup], from a state whose input holds the answers. *)
Lemma setup_state (refused : list string) (a_num : string) (start : Z)
  (b1 : list string) (a_name : string) (b2 : list string) (a_cuil a_holder : string)
  (b3 : list string) (a_tag a_status : string) F E r k w :
  Forall start_refused refused ->
  start_answer a_num = Some start ->
  Forall blank b1 -> strip a_name <> "" ->
  Forall blank b2 -> strip a_cuil <> "" ->
  Forall blank b3 -> strip a_tag <> "" ->
  exists events,
    Onboard.setup
      (state F E
         (refused ++ a_num :: b1 ++ a_name :: b2 ++ a_cuil :: a_holder
            :: b3 ++ a_tag :: a_status :: r) k w)
    = (Ret tt,
       state (<[Onboard.data_file :=
                  JsonText (onboarded_document start (strip a_name) (strip a_cuil)
                              (strip a_status) (or_default a_holder (strip a_name))
                              (with_dollar (strip a_tag)))]> F)
         (E ++ events) r k w).
Proof.
  intros Hrefused Hnum Hb1 Hname Hb2 Hcuil Hb3 Htag.
  unfold Onboard.setup. run_prints.
  destruct (input_start_number_state refused a_num start Hrefused Hnum F
              (((E ++ [Print (nl ++ Onboard.thin_rule)])
                  ++ [Print "STEP 1: Invoice Numbering"])
                 ++ [Print Onboard.thin_rule])
              (b1 ++ a_name :: b2 ++ a_cuil :: a_holder :: b3 ++ a_tag :: a_status :: r)
              k w) as [e1 H1].
  rewrite (bind_run _ _ _ _ _ H1). clear H1. run_prints.
  match goal with
  | |- context [bind (Onboard.input_required ?a ?b ?c) _ (state F ?E' _ k w)] =>
      destruct (input_required_state a b c b1 a_name Hb1 Hname F E'
                  (b2 ++ a_cuil :: a_holder :: b3 ++ a_tag :: a_status :: r) k w)
        as [e2 H2]
  end.
  rewrite (bind_run _ _ _ _ _ H2). clear H2.
  match goal with
  | |- context [bind (Onboard.input_required ?a ?b ?c) _ (state F ?E' _ k w)] =>
      destruct (input_required_state a b c b2 a_cuil Hb2 Hcuil F E'
                  (a_holder :: b3 ++ a_tag :: a_status :: r) k w)
        as [e3 H3]
  end.
  rewrite (bind_run _ _ _ _ _ H3). clear H3. run_prints.
  rewrite (bind_run _ _ _ _ _ (input_stripped_state _ _ _ _ _ _ _)).
  match goal with
  | |- context [bind (Onboard.input_required ?a ?b ?c) _ (state F ?E' _ k w)] =>
      destruct (input_required_state a b c b3 a_tag Hb3 Htag F E'
                  (a_status :: r) k w)
        as [e4 H4]
  end.
  rewrite (bind_run _ _ _ _ _ H4). clear H4.
  change (if String.eqb (strip a_holder) "" then strip a_name else strip a_holder)
    with (or_default a_holder (strip a_name)).
  assert (Htagged : forall A (cont : string -> M A) (E' : list out_event)
                      (r' : list string),
             exists ev,
               bind (if is_prefix "$" (strip a_tag) then ret (strip a_tag)
                     else print ("Note: Adding $ prefix to dolartag: $" ++ strip a_tag) ;;;
                          ret ("$" ++ strip a_tag)) cont
                 (state F E' r' k w)
               = cont (with_dollar (strip a_tag)) (state F (E' ++ ev) r' k w)).
  { intros A cont E' r'. unfold with_dollar.
    destruct (is_prefix "$" (strip a_tag)).
    - exists []. now rewrite app_nil_r.
    - eexists. unfold bind at 1.
      rewrite (bind_run _ _ _ _ _ (print_state _ _ _ _ _ _)). reflexivity. }
  match goal with
  | |- context [bind (if is_prefix "$" (strip a_tag) then _ else _) ?cont
                  (state F ?E' ?r' k w)] =>
      destruct (Htagged _ cont E' r') as [e5 H5]
  end.
  rewrite H5. clear H5 Htagged. run_prints.
  rewrite (bind_run _ _ _ _ _ (input_stripped_state _ _ _ _ _ _ _)). run_prints.
  rewrite (bind_run _ _ _ _ _ (write_file_state _ _ _ _ _ _ _)).
  match goal with
  | |- context [Onboard.summary ?s ?n ?c ?t (state ?F' ?E' r k w)] =>
      destruct (summary_state s n c t F' E' r k w) as [e6 H6]
  end.
  rewrite H6. rewrite <- !app_assoc. now eexists.
Qed.

(** X14. Onboarding carried through: when there is no store yet, or the
    existing one is given up with "yes" or "y", and the questions are
    answered (refused numbers and blank required answers being asked
    again), the store is replaced by a document whose counter is the first
    number minus one and whose only template, "rexo", holds the stripped
    answers; a blank account holder becomes the contractor's name and the
    payment tag gets its dollar sign.  Lines after the answers stay unread. *)
Theorem onboarding_writes_store (c refused : list string) (a_num : string) (start : Z)
  (b1 : list string) (a_name : string) (b2 : list string) (a_cuil a_holder : string)
  (b3 : list string) (a_tag a_status : string) (rest : list string) w :
  consent (files w) c ->
  Forall start_refused refused ->
  start_answer a_num = Some start ->
  Forall blank b1 -> strip a_name <> "" ->
  Forall blank b2 -> strip a_cuil <> "" ->
  Forall blank b3 -> strip a_tag <> "" ->
  stdin w = (c ++ refused ++ a_num :: b1 ++ a_name :: b2 ++ a_cuil :: a_holder
               :: b3 ++ a_tag :: a_status :: rest)%list ->
  exists events,
    Onboard.main w
    = (Ret tt,
       state (<[Onboard.data_file :=
                  JsonText (onboarded_document start (strip a_name) (strip a_cuil)
                              (strip a_status) (or_default a_holder (strip a_name))
                              (with_dollar (strip a_tag)))]> (files w))
         events rest 0 w).
Proof.
  intros Hc Hrefused Hnum Hb1 Hname Hb2 Hcuil Hb3 Htag Hin.
  enough (exists events,
             Onboard.main (state (files w) [] (stdin w) 0 w)
             = (Ret tt,
                state (<[Onboard.data_file :=
                           JsonText (onboarded_document start (strip a_name)
                                       (strip a_cuil) (strip a_status)
                                       (or_default a_holder (strip a_name))
                                       (with_dollar (strip a_tag)))]> (files w))
                  events rest 0 w)) as H by now rewrite state_self in H.
  rewrite Hin.
  unfold Onboard.main. run_prints.
  rewrite (bind_run _ _ _ _ _ (read_file_state _ _ _ _ _ _)).
  unfold consent in Hc.
  destruct (files w !! Onboard.data_file) as [f|].
  - destruct Hc as (a & -> & Ha). cbn [app].
    rewrite (bind_run _ _ _ _ _ (print_state _ _ _ _ _ _)).
    rewrite (bind_run _ _ _ _ _ (input_state _ _ _ _ _ _ _)).
    assert (Hyes : String.eqb (Onboard.lower_string (strip a)) "yes"
                   || String.eqb (Onboard.lower_string (strip a)) "y" = true)
      by (destruct Ha as [-> | ->]; reflexivity).
    rewrite Hyes.
    match goal with
    | |- context [Onboard.setup (state _ ?E' _ _ _)] =>
        destruct (setup_state refused a_num start b1 a_name b2 a_cuil a_holder b3
                    a_tag a_status (files w) E' rest 0 w
                    Hrefused Hnum Hb1 Hname Hb2 Hcuil Hb3 Htag) as [ev Hev]
    end.
    rewrite Hev. now eexists.
  - subst c. cbn [app].
    match goal with
    | |- context [Onboard.setup (state _ ?E' _ _ _)] =>
        destruct (setup_state refused a_num start b1 a_name b2 a_cuil a_holder b3
                    a_tag a_status (files w) E' rest 0 w
                    Hrefused Hnum Hb1 Hname Hb2 Hcuil Hb3 Htag) as [ev Hev]
    end.
    rewrite Hev. now eexists.
Qed.

Lemma onboarding_writes_store_witness :
  let w := world_with (rexo_document 7)
             [ " YES "; "-3"; "x"; "12"; ""; " Ada L. "; "20-1"; ""; ""; "ada"; "";
               "unread" ] in
  exists events,
    Onboard.main w
    = (Ret tt,
       state (<[Onboard.data_file :=
                  JsonText (onboarded_document 12 "Ada L." "20-1" "" "Ada L." "$ada")]>
                (files w))
         events ["unread"] 0 w).
Proof.
  exact (onboarding_writes_store [" YES "] ["-3"; "x"] "12" 12 [""] " Ada L. " [] "20-1" ""
           [""] "ada" "" ["unread"]
           (world_with (rexo_document 7)
              [ " YES "; "-3"; "x"; "12"; ""; " Ada L. "; "20-1"; ""; ""; "ada"; "";
                "unread" ])
           (ex_intro _ " YES " (conj eq_refl (or_introl eq_refl)))
           ltac:(constructor;
                 [right; exists (-3); split; reflexivity
                 |constructor; [left; reflexivity|constructor]])
           eq_refl
           ltac:(repeat constructor)
           ltac:(discriminate)
           ltac:(constructor)
           ltac:(discriminate)
           ltac:(repeat constructor)
           ltac:(discriminate)
           eq_refl).
Defined.

(** X15. Onboarding declined: when a store exists and the answer to the
    overwrite question is anything but "yes" or "y" (in any case, blanks
    around it ignored), onboarding stops at once with its cancellation
    message; no file is changed and no further line is read. *)
Theorem onboarding_declined (answer : string) (rest : list string) (f : file) w :
  files w !! Onboard.data_file = Some f ->
  stdin w = answer :: rest ->
  Onboard.lower_string (strip answer) <> "yes" ->
  Onboard.lower_string (strip answer) <> "y" ->
  exists events,
    Onboard.main w
    = (Ret tt,
       state (files w) (events ++ [Print "Onboarding cancelled."]) rest 0 w).
Proof.
  intros Hf Hin Hyes Hy.
  enough (exists events,
             Onboard.main (state (files w) [] (stdin w) 0 w)
             = (Ret tt,
                state (files w) (events ++ [Print "Onboarding cancelled."]) rest 0 w))
    as H by now rewrite state_self in H.
  rewrite Hin.
  unfold Onboard.main. run_prints.
  rewrite (bind_run _ _ _ _ _ (read_file_state _ _ _ _ _ _)), Hf.
  rewrite (bind_run _ _ _ _ _ (print_state _ _ _ _ _ _)).
  rewrite (bind_run _ _ _ _ _ (input_state _ _ _ _ _ _ _)).
  apply String.eqb_neq in Hyes, Hy. rewrite Hyes, Hy. cbn [orb].
  rewrite print_state. now eexists.
Qed.

Lemma onboarding_declined_witness :
  let w := world_with (rexo_document 7) ["no"; "unread"] in
  exists events,
    Onboard.main w
    = (Ret tt,
       state (files w) (events ++ [Print "Onboarding cancelled."]) ["unread"] 0 w).
Proof.
  apply (onboarding_declined "no" ["unread"] (JsonText (rexo_document 7))
           (world_with (rexo_document 7) ["no"; "unread"])).
  - reflexivity.
  - reflexivity.
  - discriminate.
  - discriminate.
Defined.

End Onboarding.

Section OnboardingBrokenOff.

Implicit Types (w : World).

Lemma failure_bind_quiet {A B} (m : M A) (k : A -> M B) :
  quiet m -> (forall a, failure_keeps_files (k a)) -> failure_keeps_files (bind m k).
Proof.
  intros Hm Hk w e. unfold bind. specialize (Hm w).
  destruct (m w) as [[a|e'] w1]; cbn [fst snd] in *; [|now intros _].
  intros H. now rewrite (Hk a w1 e H).
Qed.

Lemma succeeds_keeps_files {A} (m : M A) : succeeds m -> failure_keeps_files m.
Proof. intros H w e He. destruct (H w) as [a Ha]. congruence. Qed.

Lemma succeeds_bind {A B} (m : M A) (k : A -> M B) :
  succeeds m -> (forall a, succeeds (k a)) -> succeeds (bind m k).
Proof.
  intros Hm Hk w. unfold bind. destruct (Hm w) as [a Ha].
  destruct (m w) as [[a'|e] w1]; cbn [fst] in *; [apply Hk|discriminate].
Qed.

Lemma succeeds_print (line : string) : succeeds (print line).
Proof. intros w. now exists tt. Qed.

Lemma succeeds_write_file (name : string) (f : file) : succeeds (write_file name f).
Proof. intros w. now exists tt. Qed.

Lemma succeeds_summary (start : Z) (name cuil tag : string) :
  succeeds (Onboard.summary start name cuil tag).
Proof.
  unfold Onboard.summary.
  repeat (apply succeeds_bind; [apply succeeds_print|intros _]).
  apply succeeds_print.
Qed.

Lemma quiet_read_file (name : string) : quiet (read_file name).
Proof. now intros w. Qed.

Lemma quiet_input_start_number : quiet Onboard.input_start_number.
Proof.
  intros w. unfold Onboard.input_start_number.
  now destruct (Onboard.ask_start_number (stdin w) (stdout w)) as [[res rest] out].
Qed.

Lemma quiet_input_required (first message prompt : string) :
  quiet (Onboard.input_required first message prompt).
Proof.
  unfold Onboard.input_required. apply quiet_bind; [apply quiet_input_stripped|].
  intros x. destruct (String.eqb x ""); [|apply quiet_ret].
  intros w.
  now destruct (Onboard.ask_again message prompt (stdin w) (stdout w))
    as [[res rest] out].
Qed.

Ltac quiet_step :=
  first [ apply quiet_print | apply quiet_input | apply quiet_input_stripped
        | apply quiet_read_file | apply quiet_input_start_number
        | apply quiet_input_required | apply quiet_ret ].

Lemma setup_keeps_files : failure_keeps_files Onboard.setup.
Proof.
  unfold Onboard.setup.
  repeat first
    [ apply failure_bind_quiet;
      [ first [ quiet_step
              | match goal with
                | |- quiet (if ?b then _ else _) =>
                    destruct b;
                    [apply quiet_ret
                    |apply quiet_bind; [apply quiet_print|intros ?; apply quiet_ret]]
                end ]
      | intros ? ] ].
  apply succeeds_keeps_files.
  apply succeeds_bind; [apply succeeds_write_file|intros _].
  apply succeeds_summary.
Qed.

(** X16. Onboarding is all or nothing for the store: when the script
    fails, as it does when the input ends before the last question is
    answered, no file has been changed; the store is written only once every
    answer is in, so an existing counter is not reset by a dialogue that
    breaks off after the overwrite was agreed to. *)
Theorem onboarding_failure_keeps_store w (e : exn) :
  fst (Onboard.main w) = Raise e ->
  files (snd (Onboard.main w)) = files w.
Proof.
  revert w e. change (failure_keeps_files Onboard.main). unfold Onboard.main.
  repeat (apply failure_bind_quiet; [quiet_step|intros ?]).
  match goal with
  | |- failure_keeps_files (match ?existing with Some _ => _ | None => _ end) =>
      destruct existing; [|apply setup_keeps_files]
  end.
  repeat (apply failure_bind_quiet; [quiet_step|intros ?]).
  match goal with
  | |- failure_keeps_files (if ?b then _ else _) =>
      destruct b; [apply setup_keeps_files|]
  end.
  apply succeeds_keeps_files, succeeds_print.
Qed.

Lemma onboarding_failure_keeps_store_witness :
  let w := world_with (rexo_document 7) ["y"; "12"; "Ada L."; " "] in
  fst (Onboard.main w) = Raise EOFError
  /\ files (snd (Onboard.main w)) = files w.
Proof.
  split; [reflexivity|].
  apply (onboarding_failure_keeps_store
           (world_with (rexo_document 7) ["y"; "12"; "Ada L."; " "]) EOFError).
  reflexivity.
Defined.

End OnboardingBrokenOff.

(** ** From onboarding to the first invoice *)

Section AfterOnboarding.

Implicit Types (w : World) (args : Cli.Namespace) (cl : Cli.CommandLine).



End AfterOnboarding.

(** ** Listing, and a store that cannot be read *)

Section Listing.

Implicit Types (F : gmap string file) (E : list out_event) (r : list string)
  (k : nat) (w : World) (args : Cli.Namespace) (cl : Cli.CommandLine)
  (d ts : list (string * value)).








End Listing.

(** ** The layout and the fields it reads *)

Section LayoutFields.

Implicit Types (d : list (string * value)) (w : World).

(** X20. The layout reads the record only through fourteen fields: two
    records that agree on them, whatever other keys they hold and in
    whatever order, are laid out alike, and [generate_pdf] does the same
    with both. *)
Theorem layout_reads_fourteen_fields d d' (name : string) w :
  (forall key, In key layout_fields -> dict_lookup key d = dict_lookup key d') ->
  build_elements d w = build_elements d' w
  /\ generate_pdf {| invoice_data := d |} name w
     = generate_pdf {| invoice_data := d' |} name w.
Proof.
  intros H.
  assert (Hb : forall w', build_elements d w' = build_elements d' w').
  { intros w'.
    unfold build_elements, optional_line, line_description, remittance_text,
      item, get, getitem.
    repeat match goal with
           | |- context [dict_lookup ?key d] =>
               rewrite (H key) by (cbn [layout_fields In]; tauto)
           end.
    reflexivity. }
  split; [apply Hb|].
  unfold generate_pdf, bind. cbn [invoice_data]. now rewrite Hb.
Qed.

Lemma layout_reads_fourteen_fields_witness :
  build_elements (("memo", VStr "x") :: rev sample_record) empty_world
  = build_elements sample_record empty_world
  /\ generate_pdf {| invoice_data := ("memo", VStr "x") :: rev sample_record |}
       "a.pdf" empty_world
     = generate_pdf {| invoice_data := sample_record |} "a.pdf" empty_world.
Proof.
  apply (layout_reads_fourteen_fields
           (("memo", VStr "x") :: rev sample_record) sample_record "a.pdf" empty_world).
  intros key Hkey. cbn [layout_fields In] in Hkey.
  repeat (destruct Hkey as [<-|Hkey]; [reflexivity|]). contradiction.
Defined.

Lemma optional_line_length d (key : string) (text : value -> outcome value)
  (l : list flowable) w w' :
  optional_line d key text w = (Ret l, w') ->
  length l = if truthy (get d key) then 1%nat else 0%nat.
Proof.
  unfold optional_line. destruct (truthy (get d key)).
  - intros H. apply (f_equal fst) in H. cbn [fst] in H.
    repeat (apply bind_ret_inv in H; destruct H as (? & ? & ? & H)).
    cbn [ret fst] in H. now injection H as <-.
  - now intros [= <- _].
Qed.

(** X21. A layout has eighteen fixed elements (title, header table, the
    two party headings, the services and total tables, the remittance block,
    the note and the spacers between them) and one more line for each of
    the six party fields that is not empty: an empty or absent contractor
    name, CUIL, tax status, client name, address or EIN leaves no line. *)
Theorem layout_length d w (elements : list flowable) :
  fst (build_elements d w) = Ret elements ->
  length elements
  = (18 + length (List.filter (fun key => truthy (get d key)) party_fields))%nat.
Proof.
  intros H. unfold build_elements in H.
  repeat (apply bind_ret_inv in H; destruct H as (? & ? & ? & H)).
  cbn [ret fst] in H. injection H as <-.
  repeat match goal with
         | E : optional_line d _ _ _ = (Ret _, _) |- _ =>
             apply optional_line_length in E
         end.
  cbn [party_fields List.filter].
  repeat first [rewrite length_app | progress cbn [length app]].
  repeat match goal with
         | E : length _ = _ |- _ => rewrite E; clear E
         end.
  repeat match goal with
         | |- context [truthy (get d ?key)] => destruct (truthy (get d key))
         end; reflexivity.
Qed.

Lemma layout_length_witness : length sample_elements = 23%nat.
Proof.
  exact (layout_length sample_record empty_world sample_elements eq_refl).
Defined.

End LayoutFields.

(** ** Looking at the counter *)

Section CurrentNumber.

Implicit Types (self : InvoiceNumberManager) (w : World).

(** X22. [get_current_invoice_number] changes nothing, and right after
    [get_next_invoice_number] has returned a number it returns that same
    number, as often as it is asked. *)
Theorem current_number_is_last_allocated self w (number : string)
  (self' : InvoiceNumberManager) w' :
  get_next_invoice_number self w = (Ret (number, self'), w') ->
  get_current_invoice_number self' w' = (Ret number, w')
  /\ (get_current_invoice_number self' ;;; get_current_invoice_number self')%py w'
     = (Ret number, w').
Proof.
  unfold get_next_invoice_number, get_current_invoice_number, bind, lift,
    _save_data, write_file, ret.
  destruct (getitem (data self) "last_invoice_number") as [old|]; [|discriminate].
  destruct (add_one old) as [new|]; [|discriminate].
  destruct (setitem (data self) "last_invoice_number" new) as [d'|]; [|discriminate].
  destruct (getitem d' "last_invoice_number") as [current|] eqn:Hc; [|discriminate].
  destruct (format_04d current) as [s|] eqn:Hs; [|discriminate].
  intros [= <- <- <-]. cbn [data]. rewrite Hc, Hs. now split.
Qed.

Lemma current_number_is_last_allocated_witness :
  let self := {| data_file := default_data_file; data := rexo_document 7 |} in
  let w := world_with (rexo_document 7) [] in
  let self' := {| data_file := default_data_file; data := rexo_document 8 |} in
  let w' := snd (get_next_invoice_number self w) in
  get_current_invoice_number self' w' = (Ret "0008", w')
  /\ (get_current_invoice_number self' ;;; get_current_invoice_number self')%py w'
     = (Ret "0008", w').
Proof.
  exact (current_number_is_last_allocated
           {| data_file := default_data_file; data := rexo_document 7 |}
           (world_with (rexo_document 7) []) "0008"
           {| data_file := default_data_file; data := rexo_document 8 |}
           (snd (get_next_invoice_number
                   {| data_file := default_data_file; data := rexo_document 7 |}
                   (world_with (rexo_document 7) [])))
           eq_refl).
Defined.

End CurrentNumber.

(** ** Instances *)

Section Instances.

Lemma save_then_load_template_witness :
  let self := {| data_file := default_data_file; data := rexo_document 7 |} in
  let w := world_with (rexo_document 7) [] in
  exists self' w',
    save_template self "acme" (VDict sample_template) w = (Ret self', w')
    /\ load_template self' "acme" w' = (Ret (VDict sample_template), w')
    /\ (fresh <- __init__ (data_file self) ;; load_template fresh "acme") w'
       = (Ret (VDict sample_template), w').
Proof.
  exact (save_then_load_template
           {| data_file := default_data_file; data := rexo_document 7 |}
           [ ("last_invoice_number", VInt 7);
             ("templates", VDict [("rexo", VDict sample_template)]) ]
           "acme" (VDict sample_template) (world_with (rexo_document 7) [])
           eq_refl ltac:(discriminate)).
Defined.

Lemma save_template_keeps_rest_witness :
  let self := {| data_file := default_data_file; data := rexo_document 7 |} in
  let w := world_with (rexo_document 7) [] in
  exists self' w',
    save_template self "acme" (VDict []) w = (Ret self', w')
    /\ fst (load_template self' "rexo" w') = fst (load_template self "rexo" w)
    /\ fst (get_current_invoice_number self' w')
       = fst (get_current_invoice_number self w)
    /\ (forall k, k <> "templates" ->
          getitem (data self') k = getitem (data self) k).
Proof.
  exact (save_template_keeps_rest
           {| data_file := default_data_file; data := rexo_document 7 |}
           [ ("last_invoice_number", VInt 7);
             ("templates", VDict [("rexo", VDict sample_template)]) ]
           "acme" (VDict []) (world_with (rexo_document 7) []) "rexo"
           eq_refl ltac:(discriminate) ltac:(discriminate)).
Defined.

Lemma list_templates_after_save_witness :
  let self := {| data_file := default_data_file; data := rexo_document 7 |} in
  let w := world_with (rexo_document 7) [] in
  exists self' w',
    save_template self "acme" (VDict []) w = (Ret self', w')
    /\ (In "acme" ["rexo"] -> fst (list_templates self' w') = Ret ["rexo"])
    /\ (~ In "acme" ["rexo"] ->
        fst (list_templates self' w') = Ret ["rexo"; "acme"]).
Proof.
  exact (list_templates_after_save
           {| data_file := default_data_file; data := rexo_document 7 |}
           [ ("last_invoice_number", VInt 7);
             ("templates", VDict [("rexo", VDict sample_template)]) ]
           "acme" (VDict []) (world_with (rexo_document 7) []) ["rexo"]
           eq_refl ltac:(discriminate) eq_refl).
Defined.

Lemma store_mirrors_memory_witness :
  let self := {| data_file := default_data_file; data := rexo_document 7 |} in
  let w := world_with (rexo_document 7) [] in
  let self' := {| data_file := default_data_file; data := rexo_document 8 |} in
  __init__ default_data_file (snd (get_next_invoice_number self w))
  = (Ret self', snd (get_next_invoice_number self w)).
Proof.
  exact (proj1 (store_mirrors_memory
                  {| data_file := default_data_file; data := rexo_document 7 |}
                  (world_with (rexo_document 7) []))
           "0008" {| data_file := default_data_file; data := rexo_document 8 |}
           (snd (get_next_invoice_number
                   {| data_file := default_data_file; data := rexo_document 7 |}
                   (world_with (rexo_document 7) [])))
           eq_refl).
Defined.

Lemma allocation_on_bad_counter_witness :
  let d := [("last_invoice_number", VFloat (float_of_Z 7))] in
  let self := {| data_file := default_data_file; data := VDict d |} in
  let w := world_with (VDict d) [] in
  get_next_invoice_number self w
  = (Raise ValueError,
     {| files :=
          <[default_data_file :=
              JsonText (VDict (dict_store "last_invoice_number"
                                 (VFloat (float_add (float_of_Z 7) (float_of_Z 1)))
                                 d))]> (files w);
        stdout := stdout w; stdin := stdin w; clock := clock w; ticks := ticks w;
     reportlab := reportlab w |}).
Proof.
  exact (allocation_on_bad_counter
           {| data_file := default_data_file;
              data := VDict [("last_invoice_number", VFloat (float_of_Z 7))] |}
           [("last_invoice_number", VFloat (float_of_Z 7))]
           (VFloat (float_of_Z 7))
           (world_with (VDict [("last_invoice_number", VFloat (float_of_Z 7))]) [])
           eq_refl eq_refl).
Defined.



End Instances.

